(** * The BTCPay webhook of the campaign site

    A shallow embedding of [src/pages/api/btcpay/webhook.ts]
    ([handleBtcpayWebhook]) and the properties of its ledger writes.

    Definitions come first:
    - [Js]: the parts of the JavaScript runtime the handler computes with
      (binary64 numbers, [toFixed], [Number], [String], [parseInt],
      [split]);
    - the data model: event body, payment methods, the two Prisma tables;
    - asynchronous computations: each awaited Prisma call is one step, and
      the legs that [Promise.all] runs together are interleaved by a
      schedule, which also says which calls fail;
    - the handler, cut at its awaits;
    - the balance of a scope, and the invariant that follows the legs of a
      settlement through a run.

    Then the lemmas on runs and on the invariant, and last the theorems on
    the handler, each with the inputs that show what it says. *)

From Stdlib Require Import ZArith Ascii String DecimalString SpecFloat Lia.
From stdpp Require Import base option list.

Local Open Scope Z_scope.

(** ** JavaScript numbers and strings *)

Module Js.

(** A JavaScript number is an IEEE 754 binary64 value. [spec_float] is the
    Standard Library's executable specification of such values; the
    arithmetic below is its round-to-nearest-even arithmetic at precision
    53 and maximal exponent 1024. *)
Definition number : Type := spec_float.

Definition prec : Z := 53.
Definition emax : Z := 1024.

Definition NaN : number := S754_nan.
Definition mul : number -> number -> number := SFmul prec emax.
Definition add : number -> number -> number := SFadd prec emax.

(** [x < y] and [x === y] on numbers. *)
Definition ltb : number -> number -> bool := SFltb.
Definition eqb : number -> number -> bool := SFeqb.

(** The number of a mathematical integer. *)
Definition of_Z (z : Z) : number := binary_normalize prec emax z 0 false.

(** [ToBoolean]: [!x] holds exactly for [+0], [-0] and [NaN]. *)
Definition ToBoolean (x : number) : bool :=
  match x with
  | S754_zero _ | S754_nan => false
  | S754_infinity _ | S754_finite _ _ _ => true
  end.

(** The number nearest to the rational [num / den], ties to even. The
    division of [SpecFloat] rounds the exact quotient of the two integers
    once, whatever their size. *)
Definition nearest (neg : bool) (num den : positive) : number :=
  SFdiv prec emax (S754_finite neg num 0) (S754_finite false den 0).

(** The number nearest to [s * 10^q], for [0 <= s]. *)
Definition of_decimal (neg : bool) (s q : Z) : number :=
  match s * 10 ^ Z.max q 0 with
  | Zpos num => nearest neg num (Z.to_pos (10 ^ Z.max (- q) 0))
  | _ => S754_zero neg
  end.

(** [floor (m * 2^e * 10^p)], computed exactly. *)
Definition scaled_floor (m : positive) (e p : Z) : Z :=
  (Zpos m * 2 ^ Z.max e 0 * 10 ^ Z.max p 0)
  / (2 ^ Z.max (- e) 0 * 10 ^ Z.max (- p) 0).

(** *** Strings of digits *)

Definition digits_of (z : Z) : string :=
  NilZero.string_of_uint (N.to_uint (Z.to_N z)).

Fixpoint zeros (n : nat) : string :=
  match n with
  | O => EmptyString
  | S n' => String "0" (zeros n')
  end.

Definition is_digit (c : ascii) : bool :=
  let n := Z.of_nat (nat_of_ascii c) in (48 <=? n) && (n <=? 57).

Definition digit_value (c : ascii) : Z := Z.of_nat (nat_of_ascii c) - 48.

(** The longest prefix of decimal digits, and what follows it. *)
Fixpoint span_digits (s : string) : string * string :=
  match s with
  | String c s' =>
      if is_digit c
      then let '(d, r) := span_digits s' in (String c d, r)
      else (EmptyString, s)
  | EmptyString => (EmptyString, EmptyString)
  end.

Fixpoint value_of_digits (acc : Z) (s : string) : Z :=
  match s with
  | String c s' => value_of_digits (10 * acc + digit_value c) s'
  | EmptyString => acc
  end.

Definition str_take (n : nat) (s : string) : string := String.substring 0 n s.
Definition str_drop (n : nat) (s : string) : string :=
  String.substring n (String.length s - n) s.

(** *** [Number.prototype.toString] (radix 10) *)

(** The decimal exponent [n] of a positive value: [10^(n-1) <= v < 10^n].
    Every positive binary64 value times [10^400] is above 1, so [n + 400]
    is the number of digits of the integer part of that product. *)
Definition decimal_exponent (m : positive) (e : Z) : Z :=
  Z.of_nat (String.length (digits_of (scaled_floor m e 400))) - 400.

Definition round_trips (v : number) (s q : Z) : bool :=
  eqb (of_decimal false s q) v.

(** The [k]-digit decimals [s * 10^q] next to [v = m * 2^e] that convert
    back to [v]; of two, the one closer to [v]. *)
Definition candidate (m : positive) (e n0 k : Z) : option (Z * Z) :=
  let v := S754_finite false m e in
  let q := n0 - k in
  let lo := scaled_floor m e (- q) in
  let hi := lo + 1 in
  let carry '(s, q) := if s =? 10 ^ k then (10 ^ (k - 1), q + 1) else (s, q) in
  match round_trips v lo q, round_trips v hi q with
  | true, false => Some (lo, q)
  | false, true => Some (carry (hi, q))
  | true, true =>
      if scaled_floor (2 * m) e (- q) <? 2 * lo + 1
      then Some (lo, q) else Some (carry (hi, q))
  | false, false => None
  end.

(** The shortest digits: the least [k] that has a candidate. Seventeen
    digits identify every binary64 value. *)
Fixpoint shortest_from (fuel : nat) (m : positive) (e n0 k : Z) : Z * Z :=
  match candidate m e n0 k with
  | Some sq => sq
  | None =>
      match fuel with
      | O => (scaled_floor m e (- (n0 - k)), n0 - k)
      | S fuel' => shortest_from fuel' m e n0 (k + 1)
      end
  end.

Definition shortest (m : positive) (e : Z) : Z * Z :=
  shortest_from 16 m e (decimal_exponent m e) 1.

(** The text of a positive finite value, by the four layouts of the
    language specification: integer, fraction, leading zeros, exponent. *)
Definition positive_toString (m : positive) (e : Z) : string :=
  let '(s, q) := shortest m e in
  let ds := digits_of s in
  let k := Z.of_nat (String.length ds) in
  let n := q + k in
  if (k <=? n) && (n <=? 21) then
    String.append ds (zeros (Z.to_nat (n - k)))
  else if (0 <? n) && (n <=? 21) then
    String.append (str_take (Z.to_nat n) ds)
      (String "." (str_drop (Z.to_nat n) ds))
  else if (-6 <? n) && (n <=? 0) then
    String.append "0." (String.append (zeros (Z.to_nat (- n))) ds)
  else
    let x := n - 1 in
    let xs := String.append (if x <? 0 then "-" else "+") (digits_of (Z.abs x)) in
    if k =? 1 then String.append ds (String "e" xs)
    else String.append (str_take 1 ds)
           (String "." (String.append (str_drop 1 ds) (String "e" xs))).

(** [String(x)] for a number [x]. *)
Definition Number_toString (x : number) : string :=
  match x with
  | S754_nan => "NaN"
  | S754_zero _ => "0"
  | S754_infinity false => "Infinity"
  | S754_infinity true => "-Infinity"
  | S754_finite false m e => positive_toString m e
  | S754_finite true m e => String "-" (positive_toString m e)
  end.

(** *** [Number.prototype.toFixed] with two fraction digits *)

(** [10^21 <= m * 2^e]. *)
Definition at_least_1e21 (m : positive) (e : Z) : bool :=
  10 ^ 21 * 2 ^ Z.max (- e) 0 <=? Zpos m * 2 ^ Z.max e 0.

(** The integer [n] for which [n / 100 - m * 2^e] is closest to zero, the
    larger of two: [floor (100 * m * 2^e + 1/2)]. *)
Definition nearest_hundredths (m : positive) (e : Z) : Z :=
  (200 * Zpos m * 2 ^ Z.max e 0 + 2 ^ Z.max (- e) 0) / (2 * 2 ^ Z.max (- e) 0).

(** [n] written with two fraction digits, padded to three digits. *)
Definition two_decimals (n : Z) : string :=
  let ds := digits_of n in
  let padded := String.append (zeros (3 - String.length ds)) ds in
  let k := String.length padded in
  String.append (str_take (k - 2) padded) (String "." (str_drop (k - 2) padded)).

(** [x.toFixed(2)]. *)
Definition toFixed2 (x : number) : string :=
  match x with
  | S754_nan | S754_infinity _ => Number_toString x
  | S754_zero _ => "0.00"
  | S754_finite neg m e =>
      String.append (if neg then "-" else "")
        (if at_least_1e21 m e then positive_toString m e
         else two_decimals (nearest_hundredths m e))
  end.

(** *** [Number(string)] and [parseInt(string)] *)

Definition is_space (c : ascii) : bool :=
  let n := nat_of_ascii c in
  ((9 <=? n) && (n <=? 13))%nat || (n =? 32)%nat.

Fixpoint trim_start (s : string) : string :=
  match s with
  | String c s' => if is_space c then trim_start s' else s
  | EmptyString => EmptyString
  end.

(** A leading sign: whether it is a minus, and the rest. *)
Definition read_sign (s : string) : bool * string :=
  match s with
  | String "-" r => (true, r)
  | String "+" r => (false, r)
  | _ => (false, s)
  end.

(** The exponent part of a decimal literal, [None] when it is malformed. *)
Definition read_exponent (s : string) : option Z :=
  match s with
  | EmptyString => Some 0
  | String c r =>
      if (Ascii.eqb c "e" || Ascii.eqb c "E")%bool then
        let '(neg, r1) := read_sign r in
        match span_digits r1 with
        | (String c1 d, EmptyString) =>
            let x := value_of_digits 0 (String c1 d) in
            Some (if neg then - x else x)
        | _ => None
        end
      else None
  end.

(** [Number(s)] for a string [s]: the decimal literals, signed, with an
    optional fraction and exponent, [Infinity], and the empty string.
    These are the strings [toFixed] produces; the numeric literals with a
    radix prefix, which it never produces, read as [NaN] here. *)
Definition Number_ofString (s : string) : number :=
  let t := trim_start s in
  match t with
  | EmptyString => S754_zero false
  | _ =>
      let '(neg, r) := read_sign t in
      if String.eqb r "Infinity" then S754_infinity neg
      else
        let '(ip, r1) := span_digits r in
        let '(fp, r2) :=
          match r1 with
          | String "." r' => span_digits r'
          | _ => (EmptyString, r1)
          end in
        match String.append ip fp, read_exponent r2 with
        | String c d, Some x =>
            of_decimal neg (value_of_digits 0 (String c d))
              (x - Z.of_nat (String.length fp))
        | _, _ => NaN
        end
  end.

(** [parseInt(s)] with no radix argument, on a string without a radix
    prefix: the sign and the leading decimal digits, [NaN] when there is
    no digit. *)
Definition parseInt (s : string) : number :=
  let '(neg, r) := read_sign (trim_start s) in
  match span_digits r with
  | (String c d, _) =>
      match value_of_digits 0 (String c d) with
      | Z0 => S754_zero neg
      | z => of_Z (if neg then - z else z)
      end
  | (EmptyString, _) => NaN
  end.

(** *** [String.prototype.split] *)

(** [s.split(sep)] for a one-character separator: the pieces between the
    separators, one more than there are separators. *)
Fixpoint split (sep : ascii) (s : string) : list string :=
  match s with
  | EmptyString => [EmptyString]
  | String c s' =>
      if Ascii.eqb c sep then EmptyString :: split sep s'
      else
        match split sep s' with
        | piece :: rest => String c piece :: rest
        | [] => [String c EmptyString]
        end
  end.

(** *** Well-formed numbers *)

(** Every binary64 value has one representation [m * 2^e] in
    [spec_float], the one that [bounded] accepts; the arithmetic above and
    [Number_ofString] produce no other. The comparisons read the value off
    that representation. *)
Definition canonical (x : number) : bool :=
  match x with
  | S754_finite _ m e => bounded prec emax m e
  | _ => true
  end.

End Js.

(** The literals [0], [0.9] and [100] of the source. *)
Definition zero : Js.number := S754_zero false.
Definition nine_tenths : Js.number := Js.of_decimal false 9 (-1).
Definition hundred : Js.number := Js.of_Z 100.

(** ** Data model *)

(** Modelled from the spec: the type [DonationMetadata], declared in
    [server/types], the metadata the site attaches to an invoice. The
    flags are text (['true'] or ['false']); [userId] is [null] for an
    anonymous donor. *)
Module Metadata.
Record t : Type := {
  userId : option string;
  projectName : string;
  projectSlug : string;
  fundSlug : string;
  staticGeneratedForApi : string;
  givePointsBack : string;
  isMembership : string;
}.
End Metadata.

(** [BtcpayBody], with the fields the handler reads. [paymentMethod] and
    [payment] come with partial settlements only: [payment] is [None] when
    the body has no [payment] object, and otherwise holds
    [Number(body.payment.value)]. *)
Record BtcpayBody : Type := {
  type : string;
  invoiceId : string;
  metadata : Metadata.t;
  paymentMethod : option string;
  payment : option Js.number;
}.

(** Modelled from the spec: one entry of [BtcPayGetPaymentMethodsRes],
    declared in [server/types]; [rate] and [amount] are the numbers the
    handler reads, [Number(paymentMethod.rate)] and
    [Number(paymentMethod.amount)]. *)
Module PaymentMethod.
Record t : Type := {
  cryptoCode : string;
  rate : Js.number;
  amount : Js.number;
}.
End PaymentMethod.

(** The [data] of [prisma.donation.create]. The partial-settlement path
    leaves [pointsAdded] and [membershipExpiresAt] out. *)
Module DonationData.
Record t : Type := {
  userId : option string;
  btcPayInvoiceId : string;
  projectName : string;
  projectSlug : string;
  fundSlug : string;
  cryptoCode : string;
  grossCryptoAmount : Js.number;
  grossFiatAmount : Js.number;
  netCryptoAmount : Js.number;
  netFiatAmount : Js.number;
  pointsAdded : option Js.number;
  membershipExpiresAt : option Z;
}.
End DonationData.

(** Modelled from the spec: a row of the donation table, which the Prisma
    schema declares. *)
Module Donation.
Record t : Type := {
  id : nat;
  userId : option string;
  btcPayInvoiceId : string;
  projectName : string;
  projectSlug : string;
  fundSlug : string;
  cryptoCode : string;
  grossCryptoAmount : Js.number;
  grossFiatAmount : Js.number;
  netCryptoAmount : Js.number;
  netFiatAmount : Js.number;
  pointsAdded : Js.number;
  membershipExpiresAt : option Z;
}.
End Donation.

(** Modelled from the spec: a row of the point-history table, which the
    Prisma schema declares; it is also the [data] of
    [prisma.pointHistory.create]. The creation time of a row is its
    position in the table. *)
Module PointHistory.
Record t : Type := {
  donationId : nat;
  userId : string;
  fundSlug : string;
  projectSlug : string;
  pointsAdded : Js.number;
  pointsBalance : Js.number;
}.
End PointHistory.

(** The [where] of [prisma.pointHistory.findFirst]; the handler always
    asks for [pointsAdded: { gt: 0 }], ordered by [createdAt] descending. *)
Module Where.
Record t : Type := {
  userId : string;
  fundSlug : string;
  projectSlug : string;
}.
End Where.

(** The two tables, each in creation order. *)
Record Store : Type := {
  donations : list Donation.t;
  pointHistory : list PointHistory.t;
}.

(** Modelled from the spec: the row [prisma.donation.create] stores for
    its [data], by the column defaults of the Prisma schema ([pointsAdded]
    defaults to 0, a missing [membershipExpiresAt] is null); the generated
    identifier is taken to be the row count of the append-only table. *)
Definition donation_row (n : nat) (data : DonationData.t) : Donation.t :=
  {| Donation.id := n;
     Donation.userId := DonationData.userId data;
     Donation.btcPayInvoiceId := DonationData.btcPayInvoiceId data;
     Donation.projectName := DonationData.projectName data;
     Donation.projectSlug := DonationData.projectSlug data;
     Donation.fundSlug := DonationData.fundSlug data;
     Donation.cryptoCode := DonationData.cryptoCode data;
     Donation.grossCryptoAmount := DonationData.grossCryptoAmount data;
     Donation.grossFiatAmount := DonationData.grossFiatAmount data;
     Donation.netCryptoAmount := DonationData.netCryptoAmount data;
     Donation.netFiatAmount := DonationData.netFiatAmount data;
     Donation.pointsAdded := default zero (DonationData.pointsAdded data);
     Donation.membershipExpiresAt := DonationData.membershipExpiresAt data |}.

Definition where_matches (w : Where.t) (e : PointHistory.t) : bool :=
  String.eqb (PointHistory.userId e) (Where.userId w)
  && String.eqb (PointHistory.fundSlug e) (Where.fundSlug w)
  && String.eqb (PointHistory.projectSlug e) (Where.projectSlug w)
  && Js.ltb zero (PointHistory.pointsAdded e).

(** [findFirst({ where, orderBy: { createdAt: 'desc' } })]. *)
Definition findFirst (w : Where.t) (table : list PointHistory.t)
  : option PointHistory.t :=
  List.find (where_matches w) (reverse table).

(** ** Awaited Prisma calls *)

(** An asynchronous computation over the store: it has returned, it has
    thrown, or it awaits one Prisma call and goes on with the result. *)
Inductive Async (A : Type) : Type :=
  | Return (a : A)
  | Throw
  | DonationCreate (data : DonationData.t) (k : Donation.t -> Async A)
  | PointHistoryFindFirst (w : Where.t) (k : option PointHistory.t -> Async A)
  | PointHistoryCreate (data : PointHistory.t) (k : PointHistory.t -> Async A).

Arguments Return {A} a.
Arguments Throw {A}.
Arguments DonationCreate {A} data k.
Arguments PointHistoryFindFirst {A} w k.
Arguments PointHistoryCreate {A} data k.

Definition finished {A} (c : Async A) : bool :=
  match c with
  | Return _ | Throw => true
  | _ => false
  end.

(** One awaited call, run against the store. A call that [fails] throws
    and writes nothing. *)
Definition perform {A} (fails : bool) (st : Store) (c : Async A)
  : Store * Async A :=
  match c with
  | Return _ | Throw => (st, c)
  | DonationCreate data k =>
      if fails then (st, Throw)
      else
        let donation := donation_row (length (donations st)) data in
        ({| donations := donations st ++ [donation];
            pointHistory := pointHistory st |}, k donation)
  | PointHistoryFindFirst w k =>
      if fails then (st, Throw)
      else (st, k (findFirst w (pointHistory st)))
  | PointHistoryCreate data k =>
      if fails then (st, Throw)
      else
        ({| donations := donations st;
            pointHistory := pointHistory st ++ [data] |}, k data)
  end.

(** A computation run to its end with no other computation in between and
    no failing call. *)
Fixpoint run {A} (st : Store) (c : Async A) : Store * Async A :=
  match c with
  | Return _ | Throw => (st, c)
  | DonationCreate data k =>
      let donation := donation_row (length (donations st)) data in
      run {| donations := donations st ++ [donation];
             pointHistory := pointHistory st |} (k donation)
  | PointHistoryFindFirst w k => run st (k (findFirst w (pointHistory st)))
  | PointHistoryCreate data k =>
      run {| donations := donations st;
             pointHistory := pointHistory st ++ [data] |} (k data)
  end.

(** *** [Promise.all] over concurrent computations *)

(** The event loop resumes one computation at a time. A pick names the
    computation whose awaited call completes next and says whether that
    call fails. *)
Record Pick : Type := { leg : nat; fails : bool }.

Definition Pool : Type := Store * list (Async unit).

Definition pool_step (c : Pool) (p : Pick) : Pool :=
  match c.2 !! leg p with
  | Some l =>
      let '(st, l') := perform (fails p) c.1 l in (st, <[leg p := l']> c.2)
  | None => c
  end.

Definition exec (sched : list Pick) (c : Pool) : Pool :=
  foldl pool_step c sched.

Definition pool_run (c : Pool) (i : nat) : Pool :=
  match c.2 !! i with
  | Some l => let '(st, l') := run c.1 l in (st, <[i := l']> c.2)
  | None => c
  end.

(** What is still pending when the schedule ends is run to its end, in
    the order of the pool. *)
Definition drain (c : Pool) : Pool :=
  foldl pool_run c (seq 0 (length c.2)).

(** Every interleaving of the computations is [settle] of some schedule;
    [settle []] runs them one after the other. *)
Definition settle (sched : list Pick) (c : Pool) : Pool :=
  drain (exec sched c).

Definition fulfilled (l : Async unit) : bool :=
  match l with
  | Return _ => true
  | _ => false
  end.

(** ** The handler *)

(** [Number(x.toFixed(2))]. *)
Definition Number_toFixed2 (x : Js.number) : Js.number :=
  Js.Number_ofString (Js.toFixed2 x).

(** [x === s] for a value [x] that is a string or [undefined]. *)
Definition is_string (x : option string) (s : string) : bool :=
  match x with
  | Some x' => String.eqb x' s
  | None => false
  end.

(** Truthiness of [body.metadata.userId]: neither [null] nor empty. *)
Definition truthy (s : option string) : bool :=
  match s with
  | Some (String _ _) => true
  | _ => false
  end.

(** *** One leg of a full settlement

    The callback of [paymentMethods.map], cut at its awaits: [settleLeg]
    runs up to [prisma.donation.create], [addPoints] from there up to
    [prisma.pointHistory.findFirst], and [awardPoints] up to
    [prisma.pointHistory.create]. *)

Definition scope (body : BtcpayBody) : Where.t :=
  {| Where.userId := default EmptyString (Metadata.userId (metadata body));
     Where.fundSlug := Metadata.fundSlug (metadata body);
     Where.projectSlug := Metadata.projectSlug (metadata body) |}.

(** [lastPointHistory ? lastPointHistory.pointsBalance : 0]. *)
Definition currentBalance (lastPointHistory : option PointHistory.t)
  : Js.number :=
  match lastPointHistory with
  | Some h => PointHistory.pointsBalance h
  | None => zero
  end.

(** The [data] of the points entry of a leg. *)
Definition pointHistoryData (body : BtcpayBody) (pointsAdded : Js.number)
    (donation : Donation.t) (lastPointHistory : option PointHistory.t)
  : PointHistory.t :=
  {| PointHistory.donationId := Donation.id donation;
     PointHistory.userId := default EmptyString (Metadata.userId (metadata body));
     PointHistory.fundSlug := Metadata.fundSlug (metadata body);
     PointHistory.projectSlug := Metadata.projectSlug (metadata body);
     PointHistory.pointsAdded := pointsAdded;
     PointHistory.pointsBalance :=
       Js.add (currentBalance lastPointHistory) pointsAdded |}.

Definition awardPoints (body : BtcpayBody) (pointsAdded : Js.number)
    (donation : Donation.t) (lastPointHistory : option PointHistory.t)
  : Async unit :=
  PointHistoryCreate
    (pointHistoryData body pointsAdded donation lastPointHistory)
    (fun _ => Return tt).

(** [body.metadata.givePointsBack === 'true']. *)
Definition shouldGivePointsBack (body : BtcpayBody) : bool :=
  String.eqb (Metadata.givePointsBack (metadata body)) "true".

Definition addPoints (body : BtcpayBody) (pointsAdded : Js.number)
    (donation : Donation.t) : Async unit :=
  if shouldGivePointsBack body && truthy (Metadata.userId (metadata body)) then
    PointHistoryFindFirst (scope body) (awardPoints body pointsAdded donation)
  else Return tt.

(** [parseInt(String(Number(grossFiatAmount.toFixed(2)) * 100))], or [0]. *)
Definition pointsAdded (body : BtcpayBody) (paymentMethod : PaymentMethod.t)
  : Js.number :=
  let grossFiatAmount :=
    Js.mul (PaymentMethod.amount paymentMethod) (PaymentMethod.rate paymentMethod) in
  if shouldGivePointsBack body
  then Js.parseInt (Js.Number_toString (Js.mul (Number_toFixed2 grossFiatAmount) hundred))
  else zero.

(** The [data] of the donation of a leg; [oneYearFromNow] stands for
    [dayjs().add(1, 'year').toDate()]. *)
Definition donationData (oneYearFromNow : Z) (body : BtcpayBody)
    (paymentMethod : PaymentMethod.t) : DonationData.t :=
  let cryptoRate := PaymentMethod.rate paymentMethod in
  let grossCryptoAmount := PaymentMethod.amount paymentMethod in
  let grossFiatAmount := Js.mul grossCryptoAmount cryptoRate in
  let netCryptoAmount :=
    if shouldGivePointsBack body
    then Js.mul grossCryptoAmount nine_tenths
    else grossCryptoAmount in
  let netFiatAmount := Js.mul netCryptoAmount cryptoRate in
  {| DonationData.userId := Metadata.userId (metadata body);
     DonationData.btcPayInvoiceId := invoiceId body;
     DonationData.projectName := Metadata.projectName (metadata body);
     DonationData.projectSlug := Metadata.projectSlug (metadata body);
     DonationData.fundSlug := Metadata.fundSlug (metadata body);
     DonationData.cryptoCode := PaymentMethod.cryptoCode paymentMethod;
     DonationData.grossCryptoAmount := Number_toFixed2 grossCryptoAmount;
     DonationData.grossFiatAmount := Number_toFixed2 grossFiatAmount;
     DonationData.netCryptoAmount := Number_toFixed2 netCryptoAmount;
     DonationData.netFiatAmount := Number_toFixed2 netFiatAmount;
     DonationData.pointsAdded := Some (pointsAdded body paymentMethod);
     DonationData.membershipExpiresAt :=
       if String.eqb (Metadata.isMembership (metadata body)) "true"
       then Some oneYearFromNow else None |}.

Definition settleLeg (oneYearFromNow : Z) (body : BtcpayBody)
    (paymentMethod : PaymentMethod.t) : Async unit :=
  if negb (Js.ToBoolean (PaymentMethod.amount paymentMethod)) then Return tt
  else
    DonationCreate (donationData oneYearFromNow body paymentMethod)
      (addPoints body (pointsAdded body paymentMethod)).

(** [await Promise.all(paymentMethods.map(...))] under a schedule. *)
Definition settleInvoice (oneYearFromNow : Z) (body : BtcpayBody)
    (paymentMethods : list PaymentMethod.t) (sched : list Pick) (st : Store)
  : Pool :=
  settle sched (st, map (settleLeg oneYearFromNow body) paymentMethods).

(** *** The partial settlement's donation *)

(** [body.paymentMethod === 'BTC-OnChain' ? 'BTC' : 'XMR']. *)
Definition cryptoCodeOf (body : BtcpayBody) : string :=
  if is_string (paymentMethod body) "BTC-OnChain" then "BTC" else "XMR".

Definition ratesUrl (body : BtcpayBody) : string :=
  String.append "/rates?currencyPair=" (String.append (cryptoCodeOf body) "_USD").

Definition paymentMethodsUrl (body : BtcpayBody) : string :=
  String.append "/invoices/" (String.append (invoiceId body) "/payment-methods").

Definition paymentData (body : BtcpayBody) (cryptoRate cryptoAmount : Js.number)
  : DonationData.t :=
  let cryptoCode := cryptoCodeOf body in
  let fiatAmount := Number_toFixed2 (Js.mul cryptoAmount cryptoRate) in
  {| DonationData.userId := None;
     DonationData.btcPayInvoiceId := invoiceId body;
     DonationData.projectName := Metadata.projectName (metadata body);
     DonationData.projectSlug := Metadata.projectSlug (metadata body);
     DonationData.fundSlug := Metadata.fundSlug (metadata body);
     DonationData.cryptoCode := cryptoCode;
     DonationData.grossCryptoAmount := cryptoAmount;
     DonationData.grossFiatAmount := fiatAmount;
     DonationData.netCryptoAmount := cryptoAmount;
     DonationData.netFiatAmount := fiatAmount;
     DonationData.pointsAdded := None;
     DonationData.membershipExpiresAt := None |}.

(** *** Request, environment and response *)

(** [req.headers['btcpay-sig']]: [undefined], a string, or an array. *)
Inductive HeaderValue : Type :=
  | Absent
  | Single (value : string)
  | Several (values : list string).

Record Request : Type := {
  method : option string;
  btcpay_sig : HeaderValue;
  rawBody : string;
}.

(** What the handler reads from outside the request: the secret
    ([env.BTCPAY_WEBHOOK_SECRET]); the two library functions it calls on the
    raw body, the hex digest of [crypto.createHmac('sha256', secret)] and
    [JSON.parse], which is [None] when it throws and otherwise the value the
    handler takes to be a [BtcpayBody]; the two queries of [btcpayApi.get]
    by their URL, [None] when the request fails, the rates being
    [Number(rate)] of each entry; and the clock,
    [dayjs().add(1, 'year').toDate()]. *)
Record Env : Type := {
  BTCPAY_WEBHOOK_SECRET : string;
  createHmac_sha256_hex : string -> string -> string;
  JSON_parse : string -> option BtcpayBody;
  getRates : string -> option (list Js.number);
  getPaymentMethods : string -> option (list PaymentMethod.t);
  oneYearFromNow : Z;
}.

(** How an invocation ends: [res.status(s).json({ success })],
    [res.setHeader('Allow', allow)] with [res.status(s).end(text)], or an
    exception that leaves the handler. *)
Inductive Outcome : Type :=
  | Json (status : Z) (success : bool)
  | Ended (status : Z) (allow : list string) (text : string)
  | Uncaught.

Record Result : Type := {
  store : Store;
  requested : list string;
  outcome : Outcome;
}.

Definition all_fulfilled (legs : list (Async unit)) : bool :=
  forallb fulfilled legs.

(** The block of [InvoicePaymentSettled]: it answers, throws, or falls
    through to the rest of the handler. *)
Definition paymentSettled (env : Env) (body : BtcpayBody) (sched : list Pick)
    (st : Store) : Result + Store * list string :=
  if String.eqb (Metadata.staticGeneratedForApi (metadata body)) "false" then
    inl {| store := st; requested := []; outcome := Json 200 true |}
  else
    let url := ratesUrl body in
    match getRates env url, payment body with
    | Some (cryptoRate :: _), Some cryptoAmount =>
        let '(st', legs) :=
          settle sched
            (st, [DonationCreate (paymentData body cryptoRate cryptoAmount)
                    (fun _ => Return tt)]) in
        if all_fulfilled legs then inr (st', [url])
        else inl {| store := st'; requested := [url]; outcome := Uncaught |}
    | _, _ => inl {| store := st; requested := [url]; outcome := Uncaught |}
    end.

(** The block of [InvoiceSettled]. *)
Definition invoiceSettled (env : Env) (body : BtcpayBody) (sched : list Pick)
    (st : Store) (requested0 : list string) : Result :=
  if String.eqb (Metadata.staticGeneratedForApi (metadata body)) "true" then
    {| store := st; requested := requested0; outcome := Json 200 true |}
  else
    let url := paymentMethodsUrl body in
    match getPaymentMethods env url with
    | Some paymentMethods =>
        let '(st', legs) :=
          settleInvoice (oneYearFromNow env) body paymentMethods sched st in
        {| store := st'; requested := requested0 ++ [url];
           outcome := if all_fulfilled legs then Json 200 true else Uncaught |}
    | None =>
        {| store := st; requested := requested0 ++ [url]; outcome := Uncaught |}
    end.

(** The handler after the signature check. *)
Definition processEvent (env : Env) (body : BtcpayBody) (sched : list Pick)
    (st : Store) : Result :=
  let first :=
    if String.eqb (type body) "InvoicePaymentSettled"
    then paymentSettled env body sched st
    else inr (st, []) in
  match first with
  | inl answered => answered
  | inr (st1, requested1) =>
      if String.eqb (type body) "InvoiceSettled"
      then invoiceSettled env body sched st1 requested1
      else {| store := st1; requested := requested1; outcome := Json 200 true |}
  end.

Definition handleBtcpayWebhook (env : Env) (req : Request) (sched : list Pick)
    (st : Store) : Result :=
  if negb (is_string (method req) "POST") then
    {| store := st; requested := [];
       outcome :=
         Ended 405 ["POST"%string]
           (String.append "Method "
              (String.append (default "undefined"%string (method req))
                 " Not Allowed")) |}
  else
    match btcpay_sig req with
    | Absent | Several _ =>
        {| store := st; requested := []; outcome := Json 400 false |}
    | Single sig =>
        match JSON_parse env (rawBody req) with
        | None => {| store := st; requested := []; outcome := Uncaught |}
        | Some body =>
            let expectedSigHash :=
              createHmac_sha256_hex env (BTCPAY_WEBHOOK_SECRET env) (rawBody req) in
            let incomingSigHash := Js.split "=" sig !! 1%nat in
            if negb (is_string incomingSigHash expectedSigHash) then
              {| store := st; requested := []; outcome := Json 400 false |}
            else processEvent env body sched st
        end
    end.

(** ** Schedules *)

Definition quiet (sched : list Pick) : bool :=
  forallb (fun p => negb (fails p)) sched.

(** ** The running balance of a scope *)

(** An entry counts for the balance of a scope when it belongs to the
    scope's user, fund and project and added points. *)
Definition InScope (w : Where.t) (e : PointHistory.t) : Prop :=
  PointHistory.userId e = Where.userId w
  /\ PointHistory.fundSlug e = Where.fundSlug w
  /\ PointHistory.projectSlug e = Where.projectSlug w
  /\ Js.ltb zero (PointHistory.pointsAdded e) = true.

(** The balance of a scope in a table: the [pointsBalance] of the entry
    created last among those that count, and [0] when there is none. *)
Inductive LatestBalance (w : Where.t) (table : list PointHistory.t)
  : Js.number -> Prop :=
  | latest_none :
      (forall e, e ∈ table -> ~ InScope w e) ->
      LatestBalance w table zero
  | latest_entry before e after :
      table = before ++ e :: after ->
      InScope w e ->
      (forall e', e' ∈ after -> ~ InScope w e') ->
      LatestBalance w table (PointHistory.pointsBalance e).

(** ** The legs of a settlement, followed through a run *)

Definition nonzero (pm : PaymentMethod.t) : bool :=
  Js.ToBoolean (PaymentMethod.amount pm).

(** Whether the legs of an event are due a points entry. *)
Definition pointsDue (body : BtcpayBody) : bool :=
  shouldGivePointsBack body && truthy (Metadata.userId (metadata body)).

(** [d] is the donation of the payment method [pm]. *)
Definition made (oneYear : Z) (body : BtcpayBody) (pm : PaymentMethod.t)
    (d : Donation.t) : Prop :=
  Js.ToBoolean (PaymentMethod.amount pm) = true
  /\ d = donation_row (Donation.id d) (donationData oneYear body pm).

(** [e] is the entry of [pm] and [d], computed from the lookup in the
    table [p], which holds the rows that were there before the event. *)
Definition entered (body : BtcpayBody) (st0 : Store) (pm : PaymentMethod.t)
    (d : Donation.t) (p : list PointHistory.t) (e : PointHistory.t) : Prop :=
  pointHistory st0 `prefix_of` p
  /\ e = pointHistoryData body (pointsAdded body pm) d (findFirst (scope body) p).

(** How far a leg has come: it has not written yet, it has its donation,
    it has looked up the balance and holds the entry to write, it has
    written the entry, or a call has thrown (after the donation or not). *)
Inductive Progress : Type :=
  | Fresh
  | Made (d : Donation.t)
  | Ready (d : Donation.t) (e : PointHistory.t)
  | Done (d : Donation.t) (e : PointHistory.t)
  | Failed (d : option Donation.t).

Definition dons_of (g : Progress) : list Donation.t :=
  match g with
  | Fresh | Failed None => []
  | Made d | Ready d _ | Done d _ | Failed (Some d) => [d]
  end.

Definition ents_of (g : Progress) : list PointHistory.t :=
  match g with
  | Done _ e => [e]
  | _ => []
  end.

Definition is_failed (g : Progress) : bool :=
  match g with
  | Failed _ => true
  | _ => false
  end.

Definition fail_of (g : Progress) : Progress :=
  match g with
  | Fresh => Failed None
  | Made d | Ready d _ => Failed (Some d)
  | Done _ _ | Failed _ => g
  end.

(** The computation [l] of the payment method [pm] is where the progress
    [g] says, in a run that started from the store [st0] and has reached
    the store [st]. *)
Definition LegAt (oneYear : Z) (body : BtcpayBody) (st0 st : Store)
    (pm : PaymentMethod.t) (l : Async unit) (g : Progress) : Prop :=
  match g with
  | Fresh => l = settleLeg oneYear body pm
  | Made d =>
      made oneYear body pm d
      /\ l = addPoints body (pointsAdded body pm) d
  | Ready d e =>
      made oneYear body pm d /\ pointsDue body = true
      /\ l = PointHistoryCreate e (fun _ => Return tt)
      /\ exists p s, pointHistory st = p ++ s /\ entered body st0 pm d p e
  | Done d e =>
      made oneYear body pm d /\ pointsDue body = true /\ l = Return tt
      /\ exists p mid post,
           pointHistory st = p ++ mid ++ e :: post /\ entered body st0 pm d p e
  | Failed od =>
      l = Throw /\ forall d, od = Some d -> made oneYear body pm d
  end.

(** The invariant of a run of the legs of [paymentMethods] from the store
    [st0]: every leg is where its progress says, and the rows added to
    the two tables are those the progresses hold. [clean] says that no
    call has failed so far. *)
Record Inv (oneYear : Z) (body : BtcpayBody)
    (paymentMethods : list PaymentMethod.t) (st0 : Store) (clean : bool)
    (c : Pool) (progs : list Progress) : Prop := {
  inv_pool : length c.2 = length paymentMethods;
  inv_progs : length progs = length paymentMethods;
  inv_legs :
    forall i pm l g,
      paymentMethods !! i = Some pm -> c.2 !! i = Some l ->
      progs !! i = Some g -> LegAt oneYear body st0 c.1 pm l g;
  inv_donations :
    exists news,
      donations c.1 = donations st0 ++ news /\ news ≡ₚ progs ≫= dons_of;
  inv_entries :
    exists news,
      pointHistory c.1 = pointHistory st0 ++ news /\ news ≡ₚ progs ≫= ents_of;
  inv_clean :
    clean = true -> Forall (fun g => is_failed g = false) progs;
}.

(** What a leg has come to when every leg has returned or thrown. *)
Definition Settled (oneYear : Z) (body : BtcpayBody) (st0 st' : Store)
    (clean : bool) (pm : PaymentMethod.t) (g : Progress) : Prop :=
  match g with
  | Fresh => nonzero pm = false
  | Made d => made oneYear body pm d /\ pointsDue body = false
  | Ready _ _ => False
  | Done d e =>
      made oneYear body pm d /\ pointsDue body = true
      /\ exists p mid post,
           pointHistory st' = p ++ mid ++ e :: post /\ entered body st0 pm d p e
  | Failed od => clean = false /\ forall d, od = Some d -> made oneYear body pm d
  end.

(** ** The checks of the handler *)

(** Whether the character [c] occurs in [s]. *)
Fixpoint occurs (c : ascii) (s : string) : bool :=
  match s with
  | EmptyString => false
  | String c' s' => Ascii.eqb c' c || occurs c s'
  end.

(** A request that passes the method check and the signature check, and
    the body it carries. *)
Definition verified (env : Env) (req : Request) (body : BtcpayBody) : Prop :=
  method req = Some "POST"%string
  /\ JSON_parse env (rawBody req) = Some body
  /\ exists sig,
       btcpay_sig req = Single sig
       /\ Js.split "=" sig !! 1%nat
          = Some (createHmac_sha256_hex env (BTCPAY_WEBHOOK_SECRET env) (rawBody req)).

(** ** Sample events *)

Definition donor (userId : option string) (givePointsBack : string) : Metadata.t :=
  {| Metadata.userId := userId;
     Metadata.projectName := "Monero Fund";
     Metadata.projectSlug := "monero";
     Metadata.fundSlug := "general";
     Metadata.staticGeneratedForApi := "false";
     Metadata.givePointsBack := givePointsBack;
     Metadata.isMembership := "false" |}.

Definition invoice_settled (md : Metadata.t) : BtcpayBody :=
  {| type := "InvoiceSettled";
     invoiceId := "invoice-1";
     metadata := md;
     paymentMethod := None;
     payment := None |}.

(** A payment method as BTCPay reports it, with [rate] and [amount] as
    decimal texts. *)
Definition paid (cryptoCode rate amount : string) : PaymentMethod.t :=
  {| PaymentMethod.cryptoCode := cryptoCode;
     PaymentMethod.rate := Js.Number_ofString rate;
     PaymentMethod.amount := Js.Number_ofString amount |}.

Definition no_rows : Store := {| donations := []; pointHistory := [] |}.

Definition pick (i : nat) : Pick := {| leg := i; fails := false |}.
Definition pick_failing (i : nat) : Pick := {| leg := i; fails := true |}.

(** Two legs whose calls complete in turn: both donations, both lookups,
    both entries. *)
Definition in_turn : list Pick := [pick 0; pick 1; pick 0; pick 1; pick 0; pick 1].

(** Metadata of an invoice that was generated for the API. *)
Definition api_donor (userId : option string) (givePointsBack isMembership : string)
  : Metadata.t :=
  {| Metadata.userId := userId;
     Metadata.projectName := "Monero Fund";
     Metadata.projectSlug := "monero";
     Metadata.fundSlug := "general";
     Metadata.staticGeneratedForApi := "true";
     Metadata.givePointsBack := givePointsBack;
     Metadata.isMembership := isMembership |}.

Definition payment_settled (md : Metadata.t) (value : string) : BtcpayBody :=
  {| type := "InvoicePaymentSettled";
     invoiceId := "invoice-2";
     metadata := md;
     paymentMethod := Some "BTC-OnChain"%string;
     payment := Some (Js.Number_ofString value) |}.

(** An environment for the examples. Its parser and its digest function
    stand in for [JSON.parse] and for the HMAC of the [crypto] module: the
    parser reads the one document [raw] as [body] and rejects every other
    text, and the digest of every text is [ab12]. BTCPay answers the rate
    query with [rates] and the payment-method query with [methods]. *)
Definition sample_env (raw : string) (body : BtcpayBody)
    (rates : option (list Js.number)) (methods : option (list PaymentMethod.t))
  : Env :=
  {| BTCPAY_WEBHOOK_SECRET := "secret";
     createHmac_sha256_hex := fun _ _ => "ab12"%string;
     JSON_parse := fun s => if String.eqb s raw then Some body else None;
     getRates := fun _ => rates;
     getPaymentMethods := fun _ => methods;
     oneYearFromNow := 1800000000000 |}.

Definition signed_request (raw : string) : Request :=
  {| method := Some "POST"%string;
     btcpay_sig := Single "sha256=ab12";
     rawBody := raw |}.

(** Stands for the JSON text of the event. *)
Definition sample_raw : string := "<the raw body of the event>".

(** ** Runs of a pool *)

Section Runs.
Context {A : Type}.
Implicit Types (c : Async A) (st : Store).

Lemma run_finished c st : finished (run st c).2 = true.
Proof. revert st; induction c; intros st; simpl; auto. Qed.

Lemma run_of_finished c st : finished c = true -> run st c = (st, c).
Proof. destruct c; simpl; intros Hf; try discriminate; reflexivity. Qed.

Lemma perform_of_finished c st f :
  finished c = true -> perform f st c = (st, c).
Proof. destruct c; simpl; intros Hf; try discriminate; reflexivity. Qed.

End Runs.

Lemma exec_app (s1 s2 : list Pick) (c : Pool) :
  exec (s1 ++ s2) c = exec s2 (exec s1 c).
Proof. unfold exec. apply foldl_app. Qed.

Lemma quiet_app (s1 s2 : list Pick) : quiet (s1 ++ s2) = quiet s1 && quiet s2.
Proof. unfold quiet. apply forallb_app. Qed.

Lemma quiet_replicate (n i : nat) :
  quiet (replicate n {| leg := i; fails := false |}) = true.
Proof. induction n as [|n IH]; simpl; auto. Qed.

(** Running one computation of the pool to its end is a run of the pool
    in which only that computation is picked. *)
Lemma pool_run_exec (l : Async unit) :
  forall (st : Store) (pool : list (Async unit)) (i : nat),
    pool !! i = Some l ->
    exists n, pool_run (st, pool) i
              = exec (replicate n {| leg := i; fails := false |}) (st, pool).
Proof.
  induction l as [a| |data k IH|w k IH|data k IH]; intros st pool i Hi.
  1,2: exists 0%nat; unfold pool_run; simpl; rewrite Hi; simpl;
       by rewrite list_insert_id.
  all: assert (Hlt : (i < length pool)%nat) by (by eapply lookup_lt_Some).
  - destruct (IH (donation_row (length (donations st)) data)
                {| donations := donations st ++ [donation_row (length (donations st)) data];
                   pointHistory := pointHistory st |}
                (<[i := k (donation_row (length (donations st)) data)]> pool) i)
      as [n Hn]; [by apply list_lookup_insert_eq|].
    exists (S n). unfold exec in *. cbn [replicate foldl].
    unfold pool_step at 2. cbn [fst snd leg fails]. rewrite Hi.
    cbn [perform]. rewrite <- Hn.
    unfold pool_run; simpl. rewrite Hi; simpl.
    rewrite list_lookup_insert_eq by done. simpl.
    destruct (run _ _) as [st2 l2]. by rewrite list_insert_insert_eq.
  - destruct (IH (findFirst w (pointHistory st)) st
                (<[i := k (findFirst w (pointHistory st))]> pool) i)
      as [n Hn]; [by apply list_lookup_insert_eq|].
    exists (S n). unfold exec in *. cbn [replicate foldl].
    unfold pool_step at 2. cbn [fst snd leg fails]. rewrite Hi.
    cbn [perform]. rewrite <- Hn.
    unfold pool_run; simpl. rewrite Hi; simpl.
    rewrite list_lookup_insert_eq by done. simpl.
    destruct (run _ _) as [st2 l2]. by rewrite list_insert_insert_eq.
  - destruct (IH data
                {| donations := donations st;
                   pointHistory := pointHistory st ++ [data] |}
                (<[i := k data]> pool) i)
      as [n Hn]; [by apply list_lookup_insert_eq|].
    exists (S n). unfold exec in *. cbn [replicate foldl].
    unfold pool_step at 2. cbn [fst snd leg fails]. rewrite Hi.
    cbn [perform]. rewrite <- Hn.
    unfold pool_run; simpl. rewrite Hi; simpl.
    rewrite list_lookup_insert_eq by done. simpl.
    destruct (run _ _) as [st2 l2]. by rewrite list_insert_insert_eq.
Qed.

Lemma pool_runs_exec (idxs : list nat) :
  forall c : Pool,
    exists sched, quiet sched = true /\ foldl pool_run c idxs = exec sched c.
Proof.
  induction idxs as [|i idxs IH]; intros c.
  - by exists [].
  - cbn [foldl]. destruct (IH (pool_run c i)) as (s2 & Hq2 & ->).
    destruct c as [st pool]. destruct (pool !! i) as [l|] eqn:Hi.
    + destruct (pool_run_exec l st pool i Hi) as [n ->].
      exists (replicate n {| leg := i; fails := false |} ++ s2). split.
      * by rewrite quiet_app, quiet_replicate.
      * by rewrite exec_app.
    + exists s2. split; [done|]. unfold pool_run. simpl. by rewrite Hi.
Qed.

(** [settle] is a run of the pool: the schedule, followed by calls that
    do not fail. *)
Lemma settle_exec (sched : list Pick) (c : Pool) :
  exists rest, quiet rest = true /\ settle sched c = exec (sched ++ rest) c.
Proof.
  unfold settle, drain.
  destruct (pool_runs_exec (seq 0 (length (exec sched c).2)) (exec sched c))
    as (rest & Hq & ->).
  exists rest. by rewrite exec_app.
Qed.

Lemma pool_run_length (c : Pool) (i : nat) :
  length (pool_run c i).2 = length c.2.
Proof.
  unfold pool_run. destruct (c.2 !! i); [|done].
  destruct (run _ _). simpl. by rewrite length_insert.
Qed.

Lemma pool_runs_length (idxs : list nat) (c : Pool) :
  length (foldl pool_run c idxs).2 = length c.2.
Proof.
  revert c. induction idxs as [|i idxs IH]; intros c; cbn [foldl]; [done|].
  by rewrite IH, pool_run_length.
Qed.

Lemma pool_run_picked (c : Pool) (i : nat) (l : Async unit) :
  c.2 !! i = Some l ->
  exists l', (pool_run c i).2 !! i = Some l' /\ finished l' = true.
Proof.
  intros Hi. unfold pool_run. rewrite Hi.
  pose proof (run_finished l c.1) as Hf. destruct (run c.1 l) as [st l'].
  exists l'. simpl. split; [|done].
  apply list_lookup_insert_eq. by eapply lookup_lt_Some.
Qed.

Lemma pool_run_keeps (c : Pool) (i j : nat) (l : Async unit) :
  c.2 !! j = Some l -> finished l = true -> (pool_run c i).2 !! j = Some l.
Proof.
  intros Hj Hf. unfold pool_run. destruct (c.2 !! i) as [li|] eqn:Hi; [|done].
  destruct (decide (i = j)) as [->|Hne].
  - rewrite Hj in Hi. injection Hi as <-. rewrite run_of_finished by done.
    simpl. by rewrite list_insert_id.
  - destruct (run _ _). simpl. by rewrite list_lookup_insert_ne.
Qed.

Lemma pool_runs_finished (idxs : list nat) :
  forall (c : Pool) (j : nat),
    (j < length c.2)%nat ->
    j ∈ idxs \/ (exists l, c.2 !! j = Some l /\ finished l = true) ->
    exists l', (foldl pool_run c idxs).2 !! j = Some l' /\ finished l' = true.
Proof.
  induction idxs as [|i idxs IH]; intros c j Hlt Hj.
  - destruct Hj as [Hj|Hj]; [by apply elem_of_nil in Hj|done].
  - cbn [foldl]. apply IH; [by rewrite pool_run_length|].
    destruct Hj as [Hj|(l & Hl & Hf)].
    + apply elem_of_cons in Hj as [->|Hj]; [|by left]. right.
      destruct (lookup_lt_is_Some_2 c.2 i Hlt) as [l Hl].
      by eapply pool_run_picked.
    + right. exists l. split; [|done]. by apply pool_run_keeps.
Qed.

(** When [settle] ends, every computation of the pool has returned or
    thrown. *)
Lemma settle_finished (sched : list Pick) (c : Pool) (l : Async unit) :
  l ∈ (settle sched c).2 -> finished l = true.
Proof.
  intros Hl. apply list_elem_of_lookup in Hl as [j Hj].
  unfold settle, drain in *. set (c1 := exec sched c) in *.
  assert (Hlen : (j < length c1.2)%nat).
  { apply lookup_lt_Some in Hj. by rewrite pool_runs_length in Hj. }
  destruct (pool_runs_finished (seq 0 (length c1.2)) c1 j Hlen) as (l' & Hl' & Hf).
  { left. apply elem_of_seq. lia. }
  rewrite Hj in Hl'. by injection Hl' as <-.
Qed.

(** A pool whose computations have all ended stays as it is. *)
Lemma settle_of_finished (sched : list Pick) (st : Store)
    (pool : list (Async unit)) :
  Forall (fun l => finished l = true) pool -> settle sched (st, pool) = (st, pool).
Proof.
  intros Hf. unfold settle.
  assert (He : exec sched (st, pool) = (st, pool)).
  { induction sched as [|p sched IH]; [done|]. cbn [exec foldl].
    unfold exec in IH. replace (pool_step (st, pool) p) with (st, pool); [done|].
    unfold pool_step. simpl. destruct (pool !! leg p) as [l|] eqn:Hl; [|done].
    pose proof (Forall_lookup_1 _ _ _ _ Hf Hl) as Hfl. cbv beta in Hfl.
    rewrite perform_of_finished by done. by rewrite list_insert_id. }
  rewrite He. unfold drain. simpl. generalize (seq 0 (length pool)).
  intros idxs. induction idxs as [|i idxs IH]; [done|]. cbn [foldl].
  replace (pool_run (st, pool) i) with (st, pool); [done|].
  unfold pool_run. simpl. destruct (pool !! i) as [l|] eqn:Hl; [|done].
  pose proof (Forall_lookup_1 _ _ _ _ Hf Hl) as Hfl. cbv beta in Hfl.
  rewrite run_of_finished by done. by rewrite list_insert_id.
Qed.

(** The one awaited write of a partial settlement: it adds the row, or it
    fails and adds nothing. *)
Lemma settle_one_create (data : DonationData.t) (sched : list Pick) (st : Store) :
  settle sched (st, [DonationCreate data (fun _ => Return tt)])
  = ({| donations := donations st ++ [donation_row (length (donations st)) data];
        pointHistory := pointHistory st |}, [Return tt])
  \/ quiet sched = false
     /\ settle sched (st, [DonationCreate data (fun _ => Return tt)]) = (st, [Throw]).
Proof.
  induction sched as [|p sched IH]; [by left|].
  change (quiet (p :: sched)) with (negb (fails p) && quiet sched).
  unfold settle in *. cbn [exec foldl]. unfold exec in IH.
  destruct p as [[|i] f]; unfold pool_step at 2; cbn [fst snd leg fails].
  - cbn [lookup list_lookup perform]. destruct f; cbn [insert list_insert].
    + right. split; [done|].
      by apply (settle_of_finished sched st [Throw]), Forall_singleton.
    + left. by apply (settle_of_finished sched _ [Return tt]), Forall_singleton.
  - cbn [lookup list_lookup].
    destruct IH as [IH|[Hq IH]]; [by left|right].
    split; [|done]. by rewrite Hq, andb_false_r.
Qed.

Lemma perform_fails {A} (st : Store) (c : Async A) :
  perform true st c = (st, if finished c then c else Throw).
Proof. by destruct c. Qed.

(** ** The lookup finds the latest balance *)

Lemma where_matches_spec (w : Where.t) (e : PointHistory.t) :
  where_matches w e = true <-> InScope w e.
Proof.
  unfold where_matches, InScope.
  rewrite !andb_true_iff, !String.eqb_eq. tauto.
Qed.

Lemma LatestBalance_snoc (w : Where.t) (table : list PointHistory.t)
    (x : PointHistory.t) (b : Js.number) :
  ~ InScope w x -> LatestBalance w table b -> LatestBalance w (table ++ [x]) b.
Proof.
  intros Hx [Hnone|before e after -> He Hafter].
  - apply latest_none. intros e [He| ->%list_elem_of_singleton]%elem_of_app; auto.
  - apply (latest_entry _ _ before e (after ++ [x])); [by rewrite <- app_assoc|done|].
    intros e' [He'| ->%list_elem_of_singleton]%elem_of_app; auto.
Qed.

(** The lookup of the handler finds the latest balance. *)
Lemma findFirst_latest (w : Where.t) (table : list PointHistory.t) :
  LatestBalance w table (currentBalance (findFirst w table)).
Proof.
  unfold findFirst. induction table as [|x table IH] using rev_ind.
  - apply latest_none. intros e He. by apply elem_of_nil in He.
  - rewrite reverse_snoc. cbn [find].
    destruct (where_matches w x) eqn:Hx.
    + apply (latest_entry _ _ table x []); [done| |].
      * by apply where_matches_spec.
      * intros e' He'. by apply elem_of_nil in He'.
    + apply LatestBalance_snoc; [|done].
      rewrite <- where_matches_spec. by rewrite Hx.
Qed.




(** ** The invariant of a settlement *)

Lemma bind_insert_perm {A B} (f : A -> list B) (l : list A) (i : nat) (x y : A) :
  l !! i = Some x -> f x ++ (<[i := y]> l ≫= f) ≡ₚ f y ++ (l ≫= f).
Proof.
  intros Hi.
  rewrite <- (take_drop_middle l i x Hi) at 2.
  rewrite insert_take_drop by (by eapply lookup_lt_Some).
  rewrite !bind_app, !bind_cons. solve_Permutation.
Qed.

Section Settlement.
Variable oneYear : Z.
Variable body : BtcpayBody.
Variable paymentMethods : list PaymentMethod.t.
Variable st0 : Store.

Local Abbreviation Inv := (Inv oneYear body paymentMethods st0).
Local Abbreviation LegAt := (LegAt oneYear body st0).

Lemma Inv_start (clean : bool) :
  Inv clean (st0, map (settleLeg oneYear body) paymentMethods)
    (replicate (length paymentMethods) Fresh).
Proof.
  split; simpl.
  - by rewrite length_map.
  - by rewrite length_replicate.
  - intros i pm l g Hpm Hl Hg.
    apply lookup_replicate_1 in Hg as [-> _].
    rewrite list_lookup_fmap, Hpm in Hl. by injection Hl as <-.
  - exists []. split; [by rewrite app_nil_r|].
    induction (length paymentMethods); [done|by rewrite replicate_S, bind_cons].
  - exists []. split; [by rewrite app_nil_r|].
    induction (length paymentMethods); [done|by rewrite replicate_S, bind_cons].
  - intros _. apply Forall_replicate. done.
Qed.

Lemma Inv_weaken (clean clean' : bool) (c : Pool) (progs : list Progress) :
  (clean' = true -> clean = true) -> Inv clean c progs -> Inv clean' c progs.
Proof. intros Hc [? ? ? ? ? Hcl]. split; auto. Qed.

Lemma LegAt_grows (st st' : Store) (more : list PointHistory.t)
    (pm : PaymentMethod.t) (l : Async unit) (g : Progress) :
  pointHistory st' = pointHistory st ++ more ->
  LegAt st pm l g -> LegAt st' pm l g.
Proof.
  intros Hst. destruct g as [|d|d e|d e|od]; simpl; auto.
  - intros (Hm & Hd & Hl & p & s & Hp & He).
    do 3 (split; [done|]). exists p, (s ++ more).
    split; [|done]. by rewrite Hst, Hp, <- app_assoc.
  - intros (Hm & Hd & Hl & p & mid & post & Hp & He).
    do 3 (split; [done|]). exists p, mid, (post ++ more).
    split; [|done]. rewrite Hst, Hp. by rewrite <- !app_assoc.
Qed.

(** One leg moves on: what the invariant asks of the move. *)
Lemma Inv_update (clean clean' : bool) (st st' : Store)
    (pool : list (Async unit)) (progs : list Progress) (i : nat)
    (pm : PaymentMethod.t) (l' : Async unit) (g g' : Progress)
    (dnew : list Donation.t) (enew : list PointHistory.t) :
  Inv clean (st, pool) progs ->
  paymentMethods !! i = Some pm ->
  progs !! i = Some g ->
  donations st' = donations st ++ dnew ->
  pointHistory st' = pointHistory st ++ enew ->
  dons_of g' = dons_of g ++ dnew ->
  ents_of g' = ents_of g ++ enew ->
  LegAt st' pm l' g' ->
  (clean' = true -> clean = true /\ is_failed g' = false) ->
  Inv clean' (st', <[i := l']> pool) (<[i := g']> progs).
Proof.
  intros [Hpool Hprogs Hlegs (dn & Hdn & Hdp) (en & Hen & Hep) Hcl]
    Hpm Hg Hd He Hdg Heg Hleg Hclean; simpl in *.
  assert (Hi : (i < length pool)%nat).
  { rewrite Hpool. by eapply lookup_lt_Some. }
  split; simpl.
  - by rewrite length_insert.
  - by rewrite length_insert.
  - intros j pmj lj gj Hpmj Hlj Hgj.
    destruct (decide (i = j)) as [<-|Hne].
    + rewrite list_lookup_insert_eq in Hlj by done.
      rewrite list_lookup_insert_eq in Hgj by (by eapply lookup_lt_Some).
      injection Hlj as <-. injection Hgj as <-.
      rewrite Hpm in Hpmj. by injection Hpmj as <-.
    + rewrite list_lookup_insert_ne in Hlj by done.
      rewrite list_lookup_insert_ne in Hgj by done.
      eapply LegAt_grows; [exact He|]. by eapply Hlegs.
  - exists (dn ++ dnew). split; [by rewrite Hd, Hdn, <- app_assoc|].
    apply (Permutation_app_inv_l (dons_of g)).
    rewrite (bind_insert_perm dons_of progs i g g' Hg), Hdg, <- Hdp.
    solve_Permutation.
  - exists (en ++ enew). split; [by rewrite He, Hen, <- app_assoc|].
    apply (Permutation_app_inv_l (ents_of g)).
    rewrite (bind_insert_perm ents_of progs i g g' Hg), Heg, <- Hep.
    solve_Permutation.
  - intros Hc. destruct (Hclean Hc) as [Hc' Hg'].
    apply Forall_insert; auto.
Qed.
Lemma Inv_same (clean : bool) (st : Store) (pool : list (Async unit))
    (progs : list Progress) (p : Pick) (l : Async unit) :
  Inv clean (st, pool) progs ->
  pool !! leg p = Some l -> finished l = true ->
  Inv (clean && negb (fails p)) (pool_step (st, pool) p) progs.
Proof.
  intros HI Hl Hf. unfold pool_step. simpl. rewrite Hl.
  rewrite perform_of_finished by done. rewrite list_insert_id by done.
  eapply Inv_weaken; [|exact HI]. by intros [? _]%andb_true_iff.
Qed.

(** The invariant is kept by every step of the pool. *)
Lemma Inv_step (clean : bool) (c : Pool) (progs : list Progress) (p : Pick) :
  Inv clean c progs ->
  exists progs', Inv (clean && negb (fails p)) (pool_step c p) progs'.
Proof.
  destruct c as [st pool]. intros HI.
  destruct (pool !! leg p) as [l|] eqn:Hl; cycle 1.
  { exists progs. unfold pool_step. simpl. rewrite Hl.
    eapply Inv_weaken; [|exact HI]. by intros [? _]%andb_true_iff. }
  assert (Hi : (leg p < length paymentMethods)%nat).
  { rewrite <- (inv_pool _ _ _ _ _ _ _ HI). by eapply lookup_lt_Some. }
  destruct (lookup_lt_is_Some_2 paymentMethods _ Hi) as [pm Hpm].
  destruct (lookup_lt_is_Some_2 progs (leg p)) as [g Hg].
  { by rewrite (inv_progs _ _ _ _ _ _ _ HI). }
  pose proof (inv_legs _ _ _ _ _ _ _ HI _ _ _ _ Hpm Hl Hg) as Hleg. simpl in Hleg.
  destruct (finished l) eqn:Hf.
  { exists progs. by eapply Inv_same. }
  destruct (fails p) eqn:Hfail.
  { (* the awaited call throws *)
    exists (<[leg p := fail_of g]> progs).
    unfold pool_step. simpl. rewrite Hl, Hfail, perform_fails, Hf.
    eapply (Inv_update _ _ st st pool progs (leg p) pm Throw g (fail_of g) [] []);
      eauto using app_nil_r.
    - destruct g as [| | | |[]]; simpl; by rewrite ?app_nil_r.
    - destruct g; simpl; by rewrite ?app_nil_r.
    - destruct g as [|d|d e|d e|od]; simpl in *.
      + split; [done|]. intros ? [=].
      + split; [done|]. intros ? [= <-]. tauto.
      + split; [done|]. intros ? [= <-]. tauto.
      + destruct Hleg as (_ & _ & -> & _). done.
      + destruct Hleg as [-> _]. done.
    - by rewrite andb_false_r. }
  unfold pool_step. simpl. rewrite Hl, Hfail, andb_true_r.
  destruct g as [|d|d e|d e|od]; simpl in Hleg.
  - (* the donation is written *)
    subst l. unfold settleLeg in *.
    destruct (Js.ToBoolean (PaymentMethod.amount pm)) eqn:Hamount; [|done].
    cbn [negb perform].
    set (d := donation_row (length (donations st)) (donationData oneYear body pm)).
    exists (<[leg p := Made d]> progs).
    eapply (Inv_update _ _ st _ pool progs (leg p) pm _ Fresh (Made d) [d] []);
      eauto; simpl; by rewrite ?app_nil_r.
  - (* the balance is looked up *)
    destruct Hleg as [Hm ->]. unfold addPoints in *.
    destruct (shouldGivePointsBack body && truthy _) eqn:Hdue; [|done].
    cbn [perform].
    set (e := pointHistoryData body (pointsAdded body pm) d
                (findFirst (scope body) (pointHistory st))).
    exists (<[leg p := Ready d e]> progs).
    eapply (Inv_update _ _ st st pool progs (leg p) pm _ (Made d) (Ready d e) [] []);
      eauto; simpl; rewrite ?app_nil_r; try done.
    do 3 (split; [done|]). exists (pointHistory st), [].
    split; [by rewrite app_nil_r|]. split; [|done].
    destruct (inv_entries _ _ _ _ _ _ _ HI) as (en & Hen & _). simpl in Hen.
    rewrite Hen. by apply prefix_app_r.
  - (* the entry is written *)
    destruct Hleg as (Hm & Hdue & -> & q & s & Hq & He).
    cbn [perform].
    exists (<[leg p := Done d e]> progs).
    eapply (Inv_update _ _ st _ pool progs (leg p) pm _ (Ready d e) (Done d e) [] [e]);
      eauto; simpl; rewrite ?app_nil_r; try done.
    do 3 (split; [done|]). exists q, s, [].
    split; [|done]. by rewrite Hq, <- app_assoc.
  - destruct Hleg as (_ & _ & -> & _). done.
  - destruct Hleg as [-> _]. done.
Qed.

Lemma Inv_exec (sched : list Pick) :
  forall (clean : bool) (c : Pool) (progs : list Progress),
    Inv clean c progs ->
    exists progs', Inv (clean && quiet sched) (exec sched c) progs'.
Proof.
  induction sched as [|p sched IH]; intros clean c progs HI.
  - exists progs. simpl. by rewrite andb_true_r.
  - destruct (Inv_step clean c progs p HI) as [progs1 H1].
    destruct (IH _ _ _ H1) as [progs2 H2].
    exists progs2. simpl. cbn [exec foldl] in *. unfold exec in H2.
    by rewrite andb_assoc.
Qed.

(** The invariant holds when the settlement ends, and every leg has
    then returned or thrown. *)
Lemma Inv_settle (sched : list Pick) :
  exists progs,
    Inv (quiet sched)
      (settleInvoice oneYear body paymentMethods sched st0) progs.
Proof.
  unfold settleInvoice.
  destruct (settle_exec sched (st0, map (settleLeg oneYear body) paymentMethods))
    as (rest & Hq & ->).
  destruct (Inv_exec (sched ++ rest) true _ _ (Inv_start true)) as [progs HI].
  exists progs. by rewrite quiet_app, Hq, andb_true_r in HI.
Qed.

End Settlement.

(** ** The state a settlement ends in *)

Lemma settled_legs (oneYear : Z) (body : BtcpayBody)
    (paymentMethods : list PaymentMethod.t) (sched : list Pick) (st0 : Store) :
  exists progs,
    Inv oneYear body paymentMethods st0 (quiet sched)
      (settleInvoice oneYear body paymentMethods sched st0) progs
    /\ Forall2
         (Settled oneYear body st0
            (settleInvoice oneYear body paymentMethods sched st0).1 (quiet sched))
         paymentMethods progs.
Proof.
  destruct (Inv_settle oneYear body paymentMethods st0 sched) as [progs HI].
  exists progs. split; [done|].
  apply Forall2_same_length_lookup_2; [by rewrite (inv_progs _ _ _ _ _ _ _ HI)|].
  intros i pm g Hpm Hg.
  destruct (lookup_lt_is_Some_2
              (settleInvoice oneYear body paymentMethods sched st0).2 i) as [l Hl].
  { rewrite (inv_pool _ _ _ _ _ _ _ HI). by eapply lookup_lt_Some. }
  pose proof (inv_legs _ _ _ _ _ _ _ HI _ _ _ _ Hpm Hl Hg) as Hleg.
  assert (Hf : finished l = true).
  { eapply settle_finished. unfold settleInvoice in Hl.
    eapply list_elem_of_lookup_2, Hl. }
  destruct g as [|d|d e|d e|od]; simpl in *.
  - subst l. unfold settleLeg, nonzero in *.
    by destruct (Js.ToBoolean (PaymentMethod.amount pm)).
  - destruct Hleg as [Hm ->]. split; [done|].
    unfold addPoints, pointsDue in *.
    by destruct (shouldGivePointsBack body && truthy _).
  - by destruct Hleg as (_ & _ & -> & _).
  - destruct Hleg as (Hm & Hdue & _ & Hp). done.
  - destruct Hleg as [_ Hm]. split; [|done].
    destruct (quiet sched) eqn:Hq; [|done].
    pose proof (inv_clean _ _ _ _ _ _ _ HI eq_refl) as Hc.
    rewrite Forall_lookup in Hc. by specialize (Hc i _ Hg).
Qed.

Lemma donations_counted (oneYear : Z) (body : BtcpayBody) (st0 st' : Store)
    (clean : bool) (pms : list PaymentMethod.t) (progs : list Progress) :
  Forall2 (Settled oneYear body st0 st' clean) pms progs ->
  (length (progs ≫= dons_of) <= length (List.filter nonzero pms))%nat
  /\ (clean = true ->
      length (progs ≫= dons_of) = length (List.filter nonzero pms)).
Proof.
  induction 1 as [|pm g pms progs Hg _ [IH1 IH2]]; [done|].
  rewrite bind_cons, length_app. cbn [List.filter].
  destruct g as [|d|d e|d e|[d|]]; cbn [Settled] in Hg.
  - rewrite Hg. cbn [dons_of length]. auto.
  - destruct Hg as [[Hnz _] _]. change (nonzero pm = true) in Hnz. rewrite Hnz.
    cbn [dons_of length]. split; [lia|]. intros Hc. by rewrite IH2.
  - done.
  - destruct Hg as [[Hnz _] _]. change (nonzero pm = true) in Hnz. rewrite Hnz.
    cbn [dons_of length]. split; [lia|]. intros Hc. by rewrite IH2.
  - destruct Hg as [-> Hm]. destruct (Hm d eq_refl) as [Hnz _].
    change (nonzero pm = true) in Hnz. rewrite Hnz. cbn [dons_of length]. split; [lia|done].
  - destruct Hg as [-> _]. cbn [dons_of length]. split; [|done].
    destruct (nonzero pm); cbn [length]; lia.
Qed.

Lemma entries_counted (oneYear : Z) (body : BtcpayBody) (st0 st' : Store)
    (pms : list PaymentMethod.t) (progs : list Progress) :
  Forall2 (Settled oneYear body st0 st' true) pms progs ->
  length (progs ≫= ents_of)
  = if pointsDue body then length (progs ≫= dons_of) else 0%nat.
Proof.
  induction 1 as [|pm g pms progs Hg _ IH]; [by destruct (pointsDue body)|].
  rewrite !bind_cons, !length_app, IH.
  destruct g as [|d|d e|d e|od]; cbn [Settled] in Hg; cbn [ents_of dons_of length].
  - done.
  - destruct Hg as [_ ->]. done.
  - done.
  - destruct Hg as (_ & -> & _). done.
  - by destruct Hg.
Qed.

(** The donations and entries a settlement leaves, whatever the schedule:
    where each comes from, how many there are, and which entry belongs to
    which donation. *)
Lemma settlement_summary (oneYear : Z) (body : BtcpayBody)
    (paymentMethods : list PaymentMethod.t) (sched : list Pick) (st0 : Store) :
  exists newd newe,
    let st' := (settleInvoice oneYear body paymentMethods sched st0).1 in
    donations st' = donations st0 ++ newd
    /\ pointHistory st' = pointHistory st0 ++ newe
    /\ Forall (fun d => exists pm, pm ∈ paymentMethods /\ made oneYear body pm d) newd
    /\ Forall (fun e =>
         pointsDue body = true
         /\ exists pm d p mid post,
              pm ∈ paymentMethods /\ d ∈ newd /\ made oneYear body pm d
              /\ pointHistory st' = p ++ mid ++ e :: post
              /\ entered body st0 pm d p e) newe
    /\ (length newd <= length (List.filter nonzero paymentMethods))%nat
    /\ (quiet sched = true ->
        length newd = length (List.filter nonzero paymentMethods)
        /\ (pointsDue body = true ->
            Forall (fun d => exists pm e p mid post,
                      pm ∈ paymentMethods /\ e ∈ newe /\ made oneYear body pm d
                      /\ pointHistory st' = p ++ mid ++ e :: post
                      /\ entered body st0 pm d p e) newd)
        /\ (pointsDue body = false -> newe = [])
        /\ length newe = if pointsDue body then length newd else 0%nat).
Proof.
  destruct (settled_legs oneYear body paymentMethods sched st0)
    as (progs & HI & Hfin).
  destruct (inv_donations _ _ _ _ _ _ _ HI) as (newd & Hd & Hdp).
  destruct (inv_entries _ _ _ _ _ _ _ HI) as (newe & He & Hep).
  exists newd, newe. cbv zeta.
  set (st' := (settleInvoice oneYear body paymentMethods sched st0).1) in *.
  assert (Hat : forall g, g ∈ progs ->
            exists pm, pm ∈ paymentMethods
                       /\ Settled oneYear body st0 st' (quiet sched) pm g).
  { intros g [i Hg]%list_elem_of_lookup.
    destruct (Forall2_lookup_r _ _ _ _ _ Hfin Hg) as (pm & Hpm & Hs).
    exists pm. split; [by eapply list_elem_of_lookup_2|done]. }
  split; [done|]. split; [done|]. split; [|split; [|split; [|]]].
  - apply Forall_forall. intros d Hdin. rewrite Hdp in Hdin.
    apply list_elem_of_bind in Hdin as (g & Hdg & Hg).
    destruct (Hat g Hg) as (pm & Hpm & Hs). exists pm. split; [done|].
    destruct g as [|d'|d' e|d' e|[d'|]]; simpl in *;
      try (by apply elem_of_nil in Hdg);
      apply list_elem_of_singleton in Hdg as ->; try tauto.
    destruct Hs as [_ Hm]. by apply Hm.
  - apply Forall_forall. intros e Hein. rewrite Hep in Hein.
    apply list_elem_of_bind in Hein as (g & Heg & Hg).
    destruct (Hat g Hg) as (pm & Hpm & Hs).
    destruct g as [|d'|d' e'|d' e'|od]; simpl in *;
      try (by apply elem_of_nil in Heg).
    apply list_elem_of_singleton in Heg as ->.
    destruct Hs as (Hm & Hdue & p & mid & post & Hp & Hen).
    split; [done|]. exists pm, d', p, mid, post. split; [done|].
    split; [|done]. rewrite Hdp. apply list_elem_of_bind.
    exists (Done d' e'). split; [by apply list_elem_of_singleton|done].
  - rewrite Hdp. by apply (donations_counted _ _ _ _ _ _ _ Hfin).
  - intros Hq. split; [|split; [|split]]; cycle 3.
    { rewrite Hep, Hdp. rewrite Hq in Hfin. by eapply entries_counted. }
    + rewrite Hdp. by apply (donations_counted _ _ _ _ _ _ _ Hfin).
    + intros Hdue. apply Forall_forall. intros d Hdin. rewrite Hdp in Hdin.
      apply list_elem_of_bind in Hdin as (g & Hdg & Hg).
      destruct (Hat g Hg) as (pm & Hpm & Hs). rewrite Hq in Hs.
      destruct g as [|d'|d' e|d' e|[d'|]]; simpl in *;
        try (by apply elem_of_nil in Hdg);
        apply list_elem_of_singleton in Hdg; subst d'.
      * destruct Hs as [_ Hs]. congruence.
      * done.
      * destruct Hs as (Hm & _ & p & mid & post & Hp & Hen).
        exists pm, e, p, mid, post. split; [done|]. split; [|done].
        rewrite Hep. apply list_elem_of_bind.
        exists (Done d e). split; [by apply list_elem_of_singleton|done].
      * by destruct Hs.
    + intros Hdue. destruct newe as [|e newe]; [done|].
      assert (Hein : e ∈ progs ≫= ents_of) by (rewrite <- Hep; by left).
      apply list_elem_of_bind in Hein as (g & Heg & Hg).
      destruct (Hat g Hg) as (pm & Hpm & Hs).
      destruct g as [|d'|d' e'|d' e'|od]; simpl in *;
        try (by apply elem_of_nil in Heg).
      destruct Hs as (_ & Hs & _). congruence.
Qed.


(** ** The handler after its checks *)

Lemma is_string_spec (x : option string) (s : string) :
  is_string x s = true <-> x = Some s.
Proof.
  destruct x as [x'|]; simpl; [|by split].
  rewrite String.eqb_eq. split; [by intros ->|by intros [= ->]].
Qed.

Lemma handler_verified (env : Env) (req : Request) (body : BtcpayBody)
    (sched : list Pick) (st : Store) :
  verified env req body ->
  handleBtcpayWebhook env req sched st = processEvent env body sched st.
Proof.
  intros (Hm & Hb & sig & Hs & Hsig). unfold handleBtcpayWebhook.
  apply is_string_spec in Hm. apply is_string_spec in Hsig.
  by rewrite Hm, Hs, Hb, Hsig.
Qed.

(** A verified full-settlement event of an invoice that was not generated
    for the API: the handler asks BTCPay for the payment methods, settles
    them, and answers 200 unless a leg has thrown. *)
Lemma handler_settles (env : Env) (req : Request) (body : BtcpayBody)
    (sched : list Pick) (st : Store) (paymentMethods : list PaymentMethod.t) :
  verified env req body ->
  type body = "InvoiceSettled"%string ->
  Metadata.staticGeneratedForApi (metadata body) <> "true"%string ->
  getPaymentMethods env (paymentMethodsUrl body) = Some paymentMethods ->
  handleBtcpayWebhook env req sched st
  = {| store := (settleInvoice (oneYearFromNow env) body paymentMethods sched st).1;
       requested := [paymentMethodsUrl body];
       outcome :=
         if all_fulfilled
              (settleInvoice (oneYearFromNow env) body paymentMethods sched st).2
         then Json 200 true else Uncaught |}.
Proof.
  intros Hv Ht Hflag Hpm. rewrite (handler_verified _ _ _ _ _ Hv).
  unfold processEvent, invoiceSettled. rewrite Ht.
  cbn [String.eqb Ascii.eqb Bool.eqb].
  destruct (String.eqb _ "true") eqn:Hf; [by apply String.eqb_eq in Hf|].
  rewrite Hpm. by destruct (settleInvoice _ _ _ _ _).
Qed.

(** ** The running balance of a scope (C1, C9) *)

(** C1, as the claim states it, fails: when the calls of two legs complete
    in turn, both lookups come before both writes. The entry written
    second adds 500 points and has the balance 500, although the entry
    created just before it, in the same scope, has the balance 1000:
    the claim asks for 1000 + 500 = 1500. *)
Lemma stale_balance_written :
  let body := invoice_settled (donor (Some "user-1"%string) "true") in
  let st' :=
    (settleInvoice 0 body [paid "BTC" "10" "1"; paid "XMR" "5" "1"]
       in_turn no_rows).1 in
  map (fun e => (where_matches (scope body) e,
                 Js.Number_toString (PointHistory.pointsAdded e),
                 Js.Number_toString (PointHistory.pointsBalance e)))
    (pointHistory st')
  = [(true, "1000"%string, "1000"%string); (true, "500"%string, "500"%string)]
  /\ Js.Number_toString (Js.add (Js.of_Z 1000) (Js.of_Z 500)) = "1500"%string.
Proof. vm_compute. split; reflexivity. Qed.

(** C1, amended: every points entry a full settlement adds lies in the
    scope of the event and has [pointsBalance = B + pointsAdded], where
    [B] is the balance its leg looked up: the [pointsBalance] of the entry
    created last, among those of the scope that added points, in the table
    [p] as it was at the lookup (0 if there is none). [p] holds every
    entry that existed before the event; the entries [mid] that other legs
    wrote between the lookup and the write of the entry do not count. *)
Theorem balance_from_lookup (oneYear : Z) (body : BtcpayBody)
    (paymentMethods : list PaymentMethod.t) (sched : list Pick) (st0 : Store) :
  exists news,
    let st' := (settleInvoice oneYear body paymentMethods sched st0).1 in
    pointHistory st' = pointHistory st0 ++ news
    /\ Forall (fun e => exists p mid post B,
         pointHistory st' = p ++ mid ++ e :: post
         /\ pointHistory st0 `prefix_of` p
         /\ PointHistory.userId e = Where.userId (scope body)
         /\ PointHistory.fundSlug e = Where.fundSlug (scope body)
         /\ PointHistory.projectSlug e = Where.projectSlug (scope body)
         /\ LatestBalance (scope body) p B
         /\ PointHistory.pointsBalance e = Js.add B (PointHistory.pointsAdded e))
       news.
Proof.
  destruct (settlement_summary oneYear body paymentMethods sched st0)
    as (newd & newe & _ & He & _ & Hent & _).
  exists newe. cbv zeta. split; [done|].
  eapply Forall_impl; [exact Hent|]. cbv beta.
  intros e (_ & pm & d & p & mid & post & _ & _ & _ & Hp & Hpre & Heq).
  exists p, mid, post, (currentBalance (findFirst (scope body) p)).
  rewrite Heq at 2 3 4 5 6. split; [done|]. split; [done|].
  do 3 (split; [reflexivity|]). split; [apply findFirst_latest|reflexivity].
Qed.




(** ** Amounts and points of a leg (C2, C3) *)



(** C3, at the input of the claim: a leg of 1 unit at the rate 19.99 has
    the gross fiat amount 19.99, and with points requested the handler
    computes [19.99 * 100] as the number 1998.9999999999998, whose text
    [parseInt] cuts to 1998. The verified event of such an invoice is
    answered with 200 and leaves a donation and a points entry of 1998
    points, one less than the 1999 cents of the amount. *)
Example points_of_19_99 :
  let body := invoice_settled (donor (Some "user-1"%string) "true") in
  let pm := paid "BTC" "19.99" "1" in
  let grossFiatAmount := Js.mul (PaymentMethod.amount pm) (PaymentMethod.rate pm) in
  let r :=
    handleBtcpayWebhook (sample_env sample_raw body None (Some [pm]))
      (signed_request sample_raw) [] no_rows in
  Js.toFixed2 grossFiatAmount = "19.99"%string
  /\ Js.Number_toString (Js.mul (Number_toFixed2 grossFiatAmount) hundred)
     = "1998.9999999999998"%string
  /\ pointsAdded body pm = Js.of_Z 1998
  /\ outcome r = Json 200 true
  /\ map (fun d => Js.Number_toString (Donation.pointsAdded d)) (donations (store r))
     = ["1998"%string]
  /\ map (fun e => Js.Number_toString (PointHistory.pointsAdded e))
       (pointHistory (store r))
     = ["1998"%string].
Proof. vm_compute. repeat split; reflexivity. Qed.

(** ** Rejected requests and skipped events (C4, C5) *)

(** C4, as the claim states it, fails: a POST request whose signature
    header has no ['='] and whose body is not JSON is not answered with
    400. [JSON.parse] runs before the signature is compared, and its
    exception leaves the handler. (The environment's parser rejects the
    body, as [JSON.parse] does; the digest function plays no part.) *)
Lemma unparsable_body_throws :
  let env :=
    {| BTCPAY_WEBHOOK_SECRET := "secret";
       createHmac_sha256_hex := fun _ _ => "00"%string;
       JSON_parse := fun _ => None;
       getRates := fun _ => None;
       getPaymentMethods := fun _ => None;
       oneYearFromNow := 0 |} in
  let req :=
    {| method := Some "POST"%string;
       btcpay_sig := Single "sha256";
       rawBody := "not json" |} in
  Js.split "=" "sha256" !! 1%nat = None
  /\ outcome (handleBtcpayWebhook env req [] no_rows) = Uncaught.
Proof. vm_compute. split; reflexivity. Qed.

Lemma split_free (c : ascii) (s : string) :
  occurs c s = false -> Js.split c s = [s].
Proof.
  induction s as [|c' s IH]; [done|]. cbn [occurs Js.split].
  intros [Hc Hs]%orb_false_iff. by rewrite Hc, (IH Hs).
Qed.

Lemma split_at (c : ascii) (a s : string) :
  occurs c a = false ->
  Js.split c (String.append a (String c s)) = a :: Js.split c s.
Proof.
  induction a as [|c' a IH]; cbn [occurs String.append Js.split].
  - intros _. by rewrite Ascii.eqb_refl.
  - intros [Hc Ha]%orb_false_iff. by rewrite Hc, (IH Ha).
Qed.

(** The piece of the header the handler compares the digest with: a
    header without the separator has none; otherwise it is the text
    between the first separator and the second, whatever follows the
    second. *)
Lemma incoming_piece (a b : string) :
  occurs "=" a = false -> occurs "=" b = false ->
  Js.split "=" a !! 1%nat = None
  /\ Js.split "=" (String.append a (String "=" b)) !! 1%nat = Some b
  /\ forall rest,
       Js.split "=" (String.append a (String "=" (String.append b (String "=" rest))))
       !! 1%nat = Some b.
Proof.
  intros Ha Hb. split; [by rewrite split_free|]. split.
  - by rewrite split_at, split_free.
  - intros rest. by rewrite !split_at.
Qed.

(** The handler compares the digest with the second of the pieces that
    the ['=']s cut the header into: what follows a second ['='] is not
    looked at, and a header without ['='] has no second piece. *)
Example incoming_signature :
  Js.split "=" "sha256=ab12=cd" !! 1%nat = Some "ab12"%string
  /\ Js.split "=" "sha256=ab12" !! 1%nat = Some "ab12"%string
  /\ Js.split "=" "sha256" !! 1%nat = None.
Proof. vm_compute. repeat split; reflexivity. Qed.

(** C4, amended: if the method is not POST the handler answers 405; for a
    POST request it answers 400 with [{ success: false }] when the
    signature header is absent or not a string, and, provided the raw body
    parses as JSON, when the digest of the raw body differs from the piece
    of the header between its first and its second ['='] (a header without
    ['='] has no such piece). In each of these cases, and also when the raw
    body does not parse, nothing is requested from BTCPay and nothing is
    written. *)
Theorem rejected_requests (env : Env) (req : Request) (sched : list Pick)
    (st : Store) :
  let r := handleBtcpayWebhook env req sched st in
  let unprocessed out := r = {| store := st; requested := []; outcome := out |} in
  (method req <> Some "POST"%string ->
   unprocessed
     (Ended 405 ["POST"%string]
        (String.append "Method "
           (String.append (default "undefined"%string (method req)) " Not Allowed"))))
  /\ (method req = Some "POST"%string ->
      (forall sig, btcpay_sig req <> Single sig) ->
      unprocessed (Json 400 false))
  /\ (forall sig body,
        method req = Some "POST"%string ->
        btcpay_sig req = Single sig ->
        JSON_parse env (rawBody req) = Some body ->
        Js.split "=" sig !! 1%nat
        <> Some (createHmac_sha256_hex env (BTCPAY_WEBHOOK_SECRET env) (rawBody req)) ->
        unprocessed (Json 400 false))
  /\ (forall sig,
        method req = Some "POST"%string ->
        btcpay_sig req = Single sig ->
        JSON_parse env (rawBody req) = None ->
        store r = st /\ requested r = []).
Proof.
  cbv zeta. unfold handleBtcpayWebhook.
  destruct (is_string (method req) "POST") eqn:Hp; cbn [negb].
  - apply is_string_spec in Hp. split; [by intros Hm|]. split; [|split].
    + intros _ Hsig. destruct (btcpay_sig req) as [|sig|l]; [done| |done].
      by destruct (Hsig sig).
    + intros sig body _ -> -> Hne.
      destruct (is_string _ _) eqn:Hs; [|done]. by apply is_string_spec in Hs.
    + by intros sig _ -> ->.
  - assert (Hm : method req <> Some "POST"%string).
    { intros Hm. apply is_string_spec in Hm. congruence. }
    split; [done|]. split; [|split]; intros; done.
Qed.

(** C5: a verified partial-settlement event ([InvoicePaymentSettled])
    whose metadata says it was not generated for the API, and a verified
    full-settlement event ([InvoiceSettled]) whose metadata says it was,
    are skipped: nothing is requested, the store is left as it was (no
    donation, no points entry), and the answer is 200 with
    [{ success: true }]. *)
Theorem skipped_events (env : Env) (req : Request) (body : BtcpayBody)
    (sched : list Pick) (st : Store) :
  verified env req body ->
  type body = "InvoicePaymentSettled"%string
  /\ Metadata.staticGeneratedForApi (metadata body) = "false"%string
  \/ type body = "InvoiceSettled"%string
     /\ Metadata.staticGeneratedForApi (metadata body) = "true"%string ->
  handleBtcpayWebhook env req sched st
  = {| store := st; requested := []; outcome := Json 200 true |}.
Proof.
  intros Hv Hskip. rewrite (handler_verified _ _ _ _ _ Hv).
  unfold processEvent, paymentSettled, invoiceSettled.
  destruct Hskip as [[-> ->]|[-> ->]]; reflexivity.
Qed.

(** A partial-settlement event of an invoice that was not generated for
    the API is skipped. *)
Lemma skipped_events_witness :
  let body := payment_settled (donor (Some "user-1"%string) "true") "0.5" in
  let env := sample_env sample_raw body (Some [Js.of_Z 60000]) None in
  let req := signed_request sample_raw in
  verified env req body
  /\ (type body = "InvoicePaymentSettled"%string
      /\ Metadata.staticGeneratedForApi (metadata body) = "false"%string
      \/ type body = "InvoiceSettled"%string
         /\ Metadata.staticGeneratedForApi (metadata body) = "true"%string)
  /\ handleBtcpayWebhook env req [] no_rows
     = {| store := no_rows; requested := []; outcome := Json 200 true |}.
Proof.
  cbv zeta.
  set (body := payment_settled (donor (Some "user-1"%string) "true") "0.5").
  assert (Hv : verified (sample_env sample_raw body (Some [Js.of_Z 60000]) None)
                 (signed_request sample_raw) body).
  { split; [reflexivity|]. split; [reflexivity|].
    exists "sha256=ab12"%string. split; reflexivity. }
  assert (Hs : type body = "InvoicePaymentSettled"%string
               /\ Metadata.staticGeneratedForApi (metadata body) = "false"%string
               \/ type body = "InvoiceSettled"%string
                  /\ Metadata.staticGeneratedForApi (metadata body) = "true"%string).
  { left. split; reflexivity. }
  split; [exact Hv|]. split; [exact Hs|].
  exact (skipped_events _ _ _ [] no_rows Hv Hs).
Defined.

(** ** The rows a settlement writes (C6, C7, C8) *)

(** C6: a payment method whose amount is zero writes nothing. Whatever the
    schedule, every donation a full settlement adds is the donation of a
    payment method with a nonzero amount, every points entry it adds
    belongs to one of these donations, and there are at most as many
    donations as nonzero payment methods: exactly as many when no call
    fails. For two payment methods of which one is zero that is exactly one
    donation, the one of the nonzero leg. *)
Theorem zero_amount_skipped (oneYear : Z) (body : BtcpayBody)
    (paymentMethods : list PaymentMethod.t) (sched : list Pick) (st0 : Store) :
  exists newd newe,
    let st' := (settleInvoice oneYear body paymentMethods sched st0).1 in
    donations st' = donations st0 ++ newd
    /\ pointHistory st' = pointHistory st0 ++ newe
    /\ Forall (fun d => exists pm,
         pm ∈ paymentMethods /\ nonzero pm = true
         /\ d = donation_row (Donation.id d) (donationData oneYear body pm)) newd
    /\ Forall (fun e => exists d,
         d ∈ newd /\ PointHistory.donationId e = Donation.id d) newe
    /\ (length newd <= length (List.filter nonzero paymentMethods))%nat
    /\ (quiet sched = true ->
        length newd = length (List.filter nonzero paymentMethods)).
Proof.
  destruct (settlement_summary oneYear body paymentMethods sched st0)
    as (newd & newe & Hd & He & Hmade & Hent & Hle & Hquiet).
  exists newd, newe. cbv zeta. do 3 (split; [done|]). split; [|split].
  - eapply Forall_impl; [exact Hent|]. cbv beta.
    intros e (_ & pm & d & p & mid & post & _ & Hdin & _ & _ & _ & Heq).
    exists d. split; [done|]. by rewrite Heq.
  - done.
  - intros Hq. by apply Hquiet.
Qed.

(** The instance of C6 for an invoice paid with two methods, the first of
    which contributed nothing. *)
Lemma one_donation_of_two (oneYear : Z) (body : BtcpayBody)
    (pm0 pm1 : PaymentMethod.t) (sched : list Pick) (st0 : Store) :
  quiet sched = true -> nonzero pm0 = false -> nonzero pm1 = true ->
  exists n,
    donations (settleInvoice oneYear body [pm0; pm1] sched st0).1
    = donations st0 ++ [donation_row n (donationData oneYear body pm1)].
Proof.
  intros Hq H0 H1.
  destruct (settlement_summary oneYear body [pm0; pm1] sched st0)
    as (newd & newe & Hd & _ & Hmade & _ & _ & Hquiet).
  destruct (Hquiet Hq) as (Hlen & _). cbn [List.filter] in Hlen.
  rewrite H0, H1 in Hlen.
  destruct newd as [|d [|d' newd]]; try discriminate Hlen.
  apply Forall_singleton in Hmade as (pm & Hpm & Hnz & Hrow).
  exists (Donation.id d). rewrite Hd. do 2 f_equal.
  apply elem_of_cons in Hpm as [->|Hpm]; [unfold nonzero in H0; congruence|].
  by apply list_elem_of_singleton in Hpm as ->.
Qed.

(** C7, as the claim states it, fails: when the write of the points entry
    fails, the donation of the leg stays, with its 1000 points and its
    user, and no points entry exists for it. *)
Lemma donation_without_entry :
  let body := invoice_settled (donor (Some "user-1"%string) "true") in
  let st' :=
    (settleInvoice 0 body [paid "BTC" "10" "1"]
       [pick 0; pick 0; pick_failing 0] no_rows).1 in
  map (fun d => (Donation.id d, Donation.userId d,
                 Js.Number_toString (Donation.pointsAdded d))) (donations st')
  = [(0%nat, Some "user-1"%string, "1000"%string)]
  /\ pointHistory st' = [].
Proof. vm_compute. split; reflexivity. Qed.

(** C7, amended: a leg writes its donation first and its points entry in a
    second, separate write. After a full settlement, whatever the schedule
    and whichever calls failed, every points entry it added has its
    donation (same points, same user): no points entry exists without its
    donation. When no call fails and a points entry is due, every donation
    it added has its points entry. *)
Theorem entry_has_donation (oneYear : Z) (body : BtcpayBody)
    (paymentMethods : list PaymentMethod.t) (sched : list Pick) (st0 : Store) :
  exists newd newe,
    let st' := (settleInvoice oneYear body paymentMethods sched st0).1 in
    donations st' = donations st0 ++ newd
    /\ pointHistory st' = pointHistory st0 ++ newe
    /\ Forall (fun e => exists d,
         d ∈ newd
         /\ PointHistory.donationId e = Donation.id d
         /\ Donation.pointsAdded d = PointHistory.pointsAdded e
         /\ Donation.userId d = Some (PointHistory.userId e)) newe
    /\ (quiet sched = true -> pointsDue body = true ->
        Forall (fun d => exists e,
          e ∈ newe /\ PointHistory.donationId e = Donation.id d) newd).
Proof.
  destruct (settlement_summary oneYear body paymentMethods sched st0)
    as (newd & newe & Hd & He & _ & Hent & _ & Hquiet).
  exists newd, newe. cbv zeta. do 2 (split; [done|]). split.
  - eapply Forall_impl; [exact Hent|]. cbv beta.
    intros e (Hdue & pm & d & p & mid & post & _ & Hdin & [_ Hrow] & _ & _ & Heq).
    exists d. rewrite Heq. split; [done|]. split; [done|]. split.
    + by rewrite Hrow.
    + rewrite Hrow. cbn [donation_row Donation.userId donationData
                         DonationData.userId pointHistoryData PointHistory.userId].
      unfold pointsDue in Hdue. apply andb_true_iff in Hdue as [_ Hu].
      by destruct (Metadata.userId (metadata body)).
  - intros Hq Hdue. destruct (Hquiet Hq) as (_ & Hall & _).
    eapply Forall_impl; [exact (Hall Hdue)|]. cbv beta.
    intros d (pm & e & p & mid & post & _ & Hein & _ & _ & _ & Heq).
    exists e. split; [done|]. by rewrite Heq.
Qed.

(** C8, as the claim states it, fails: a leg of one satoshi at the rate
    60000 is worth 0.00 in fiat, so no points are awarded ([pointsAdded] is
    0, not above 0), and yet, the flag being set and the user known, a
    points entry is written. *)
Lemma entry_without_points :
  let body := invoice_settled (donor (Some "user-1"%string) "true") in
  let st' :=
    (settleInvoice 0 body [paid "BTC" "60000" "0.00000001"] [] no_rows).1 in
  map (fun e => (Js.Number_toString (PointHistory.pointsAdded e),
                 Js.ltb zero (PointHistory.pointsAdded e))) (pointHistory st')
  = [("0"%string, false)].
Proof. vm_compute. reflexivity. Qed.

(** C8, amended: when no call fails, every payment method with a nonzero
    amount gets its donation, and the legs write points entries exactly
    when [givePointsBack] is ['true'] and the metadata carries a non-empty
    [userId]: then one entry for each donation, each linked to its
    donation and carrying the donation's [pointsAdded] (which may be 0),
    and otherwise none, the donations being written all the same. *)
Theorem entry_iff_flag_and_user (oneYear : Z) (body : BtcpayBody)
    (paymentMethods : list PaymentMethod.t) (sched : list Pick) (st0 : Store) :
  quiet sched = true ->
  exists newd newe,
    let st' := (settleInvoice oneYear body paymentMethods sched st0).1 in
    donations st' = donations st0 ++ newd
    /\ pointHistory st' = pointHistory st0 ++ newe
    /\ length newd = length (List.filter nonzero paymentMethods)
    /\ length newe
       = (if shouldGivePointsBack body && truthy (Metadata.userId (metadata body))
          then length newd else 0%nat)
    /\ Forall (fun e => exists d,
         d ∈ newd
         /\ PointHistory.donationId e = Donation.id d
         /\ PointHistory.pointsAdded e = Donation.pointsAdded d) newe.
Proof.
  intros Hq.
  destruct (settlement_summary oneYear body paymentMethods sched st0)
    as (newd & newe & Hd & He & _ & Hent & _ & Hquiet).
  destruct (Hquiet Hq) as (Hlen & _ & _ & Hcount).
  exists newd, newe. cbv zeta. do 4 (split; [done|]).
  eapply Forall_impl; [exact Hent|]. cbv beta.
  intros e (_ & pm & d & p & mid & post & _ & Hdin & [_ Hrow] & _ & _ & Heq).
  exists d. rewrite Heq. split; [done|]. split; [done|]. by rewrite Hrow.
Qed.

(** An invoice paid by an anonymous donor who asked for points: the
    donation is written, no points entry is. *)
Lemma entry_iff_flag_and_user_witness :
  let body := invoice_settled (donor None "true") in
  quiet [] = true
  /\ exists newd newe,
       let st' := (settleInvoice 0 body [paid "BTC" "10" "1"] [] no_rows).1 in
       donations st' = donations no_rows ++ newd
       /\ pointHistory st' = pointHistory no_rows ++ newe
       /\ length newd = length (List.filter nonzero [paid "BTC" "10" "1"])
       /\ length newe
          = (if shouldGivePointsBack body && truthy (Metadata.userId (metadata body))
             then length newd else 0%nat)
       /\ Forall (fun e => exists d,
            d ∈ newd
            /\ PointHistory.donationId e = Donation.id d
            /\ PointHistory.pointsAdded e = Donation.pointsAdded d) newe.
Proof.
  split; [reflexivity|].
  apply (entry_iff_flag_and_user 0 (invoice_settled (donor None "true"))
           [paid "BTC" "10" "1"] [] no_rows).
  reflexivity.
Defined.

(** ** Partial settlements (C10) *)

(** C10: a verified partial-settlement event that is not skipped writes
    no points entry, and at most one donation, which has no user, no
    points and no membership expiry, whatever the metadata says about
    user, points and membership. When BTCPay gives a rate, the body has
    its payment and the write does not fail, that donation is written and
    the answer is 200 with [{ success: true }]. *)
Theorem payment_settled_donation (env : Env) (req : Request) (body : BtcpayBody)
    (sched : list Pick) (st : Store) :
  verified env req body ->
  type body = "InvoicePaymentSettled"%string ->
  Metadata.staticGeneratedForApi (metadata body) <> "false"%string ->
  let r := handleBtcpayWebhook env req sched st in
  pointHistory (store r) = pointHistory st
  /\ (donations (store r) = donations st
      \/ exists d,
           donations (store r) = donations st ++ [d]
           /\ Donation.userId d = None
           /\ Donation.pointsAdded d = zero
           /\ Donation.membershipExpiresAt d = None)
  /\ (forall cryptoRate rates cryptoAmount,
        getRates env (ratesUrl body) = Some (cryptoRate :: rates) ->
        payment body = Some cryptoAmount ->
        quiet sched = true ->
        r = {| store :=
                 {| donations :=
                      donations st
                      ++ [donation_row (length (donations st))
                            (paymentData body cryptoRate cryptoAmount)];
                    pointHistory := pointHistory st |};
               requested := [ratesUrl body];
               outcome := Json 200 true |}).
Proof.
  intros Hv Ht Hflag. cbv zeta. rewrite (handler_verified _ _ _ _ _ Hv).
  unfold processEvent, paymentSettled. rewrite Ht. cbn [String.eqb Ascii.eqb Bool.eqb].
  destruct (String.eqb _ "false") eqn:Hf; [by apply String.eqb_eq in Hf|].
  destruct (getRates env (ratesUrl body)) as [[|cryptoRate rates]|] eqn:Hr;
    try (cbn; split; [done|]; split; [by left|]; intros; discriminate).
  destruct (payment body) as [cryptoAmount|] eqn:Hp;
    try (cbn; split; [done|]; split; [by left|]; intros; discriminate).
  destruct (settle_one_create (paymentData body cryptoRate cryptoAmount) sched st)
    as [->|[Hq ->]]; cbn.
  - split; [done|]. split; [right; eexists; by split|].
    by intros ? ? ? [= <- <-] [= <-] _.
  - split; [done|]. split; [by left|]. intros ? ? ? _ _ Hq'. congruence.
Qed.

(** A payment of 0.5 BTC at the rate 60000 toward an API invoice whose
    metadata names a user, asks for points and is a membership. *)
Lemma payment_settled_donation_witness :
  let body :=
    payment_settled (api_donor (Some "user-1"%string) "true" "true") "0.5" in
  let env := sample_env sample_raw body (Some [Js.of_Z 60000]) None in
  let req := signed_request sample_raw in
  verified env req body
  /\ type body = "InvoicePaymentSettled"%string
  /\ Metadata.staticGeneratedForApi (metadata body) <> "false"%string
  /\ let r := handleBtcpayWebhook env req [] no_rows in
     pointHistory (store r) = pointHistory no_rows
     /\ (donations (store r) = donations no_rows
         \/ exists d,
              donations (store r) = donations no_rows ++ [d]
              /\ Donation.userId d = None
              /\ Donation.pointsAdded d = zero
              /\ Donation.membershipExpiresAt d = None)
     /\ (forall cryptoRate rates cryptoAmount,
           getRates env (ratesUrl body) = Some (cryptoRate :: rates) ->
           payment body = Some cryptoAmount ->
           quiet [] = true ->
           r = {| store :=
                    {| donations :=
                         donations no_rows
                         ++ [donation_row (length (donations no_rows))
                               (paymentData body cryptoRate cryptoAmount)];
                       pointHistory := pointHistory no_rows |};
                  requested := [ratesUrl body];
                  outcome := Json 200 true |}).
Proof.
  cbv zeta.
  set (body := payment_settled (api_donor (Some "user-1"%string) "true" "true") "0.5").
  assert (Hv : verified (sample_env sample_raw body (Some [Js.of_Z 60000]) None)
                 (signed_request sample_raw) body).
  { split; [reflexivity|]. split; [reflexivity|].
    exists "sha256=ab12"%string. split; reflexivity. }
  assert (Hf : Metadata.staticGeneratedForApi (metadata body) <> "false"%string)
    by discriminate.
  split; [exact Hv|]. split; [reflexivity|]. split; [exact Hf|].
  exact (payment_settled_donation _ _ _ [] no_rows Hv eq_refl Hf).
Defined.

(** What that event leaves: one donation of 0.5 BTC and 30000 in fiat with
    no user, no points and no expiry, and no points entry. *)
Example payment_settled_rows :
  let body :=
    payment_settled (api_donor (Some "user-1"%string) "true" "true") "0.5" in
  let r :=
    handleBtcpayWebhook (sample_env sample_raw body (Some [Js.of_Z 60000]) None)
      (signed_request sample_raw) [] no_rows in
  map (fun d => (Donation.userId d, Donation.cryptoCode d,
                 Js.Number_toString (Donation.grossCryptoAmount d),
                 Js.Number_toString (Donation.grossFiatAmount d),
                 Js.Number_toString (Donation.pointsAdded d),
                 Donation.membershipExpiresAt d)) (donations (store r))
  = [(None, "BTC"%string, "0.5"%string, "30000"%string, "0"%string, None)]
  /\ pointHistory (store r) = []
  /\ outcome r = Json 200 true.
Proof. vm_compute. repeat split; reflexivity. Qed.

(** ** Further properties of the handler *)

(** *** How a settlement ends and what the handler answers *)

(** When no call fails, every leg of a settlement returns. *)
Lemma quiet_all_fulfilled (oneYear : Z) (body : BtcpayBody)
    (paymentMethods : list PaymentMethod.t) (sched : list Pick) (st0 : Store) :
  quiet sched = true ->
  all_fulfilled (settleInvoice oneYear body paymentMethods sched st0).2 = true.
Proof.
  intros Hq.
  destruct (Inv_settle oneYear body paymentMethods st0 sched) as [progs HI].
  rewrite Hq in HI. unfold all_fulfilled. apply forallb_forall.
  intros l Hl. apply list_elem_of_In, list_elem_of_lookup in Hl as [i Hl].
  assert (Hf : finished l = true).
  { eapply settle_finished. unfold settleInvoice in Hl.
    eapply list_elem_of_lookup_2, Hl. }
  assert (Hi : (i < length paymentMethods)%nat).
  { rewrite <- (inv_pool _ _ _ _ _ _ _ HI). by eapply lookup_lt_Some. }
  destruct (lookup_lt_is_Some_2 paymentMethods i Hi) as [pm Hpm].
  destruct (lookup_lt_is_Some_2 progs i) as [g Hg].
  { by rewrite (inv_progs _ _ _ _ _ _ _ HI). }
  pose proof (inv_legs _ _ _ _ _ _ _ HI _ _ _ _ Hpm Hl Hg) as Hleg.
  pose proof (inv_clean _ _ _ _ _ _ _ HI eq_refl) as Hc.
  rewrite Forall_lookup in Hc. specialize (Hc i _ Hg).
  destruct g as [|d|d e|d e|od]; simpl in *.
  - subst l. unfold settleLeg in *.
    by destruct (Js.ToBoolean (PaymentMethod.amount pm)).
  - destruct Hleg as [_ ->]. unfold addPoints in *.
    by destruct (shouldGivePointsBack body && truthy _).
  - by destruct Hleg as (_ & _ & -> & _).
  - by destruct Hleg as (_ & _ & -> & _).
  - done.
Qed.

(** When every leg of a settlement has returned, none has stopped half
    way: the legs are settled as in a run without failing calls. *)
Lemma fulfilled_settled (oneYear : Z) (body : BtcpayBody)
    (paymentMethods : list PaymentMethod.t) (sched : list Pick) (st0 : Store) :
  all_fulfilled (settleInvoice oneYear body paymentMethods sched st0).2 = true ->
  exists progs,
    Inv oneYear body paymentMethods st0 (quiet sched)
      (settleInvoice oneYear body paymentMethods sched st0) progs
    /\ Forall2
         (Settled oneYear body st0
            (settleInvoice oneYear body paymentMethods sched st0).1 true)
         paymentMethods progs.
Proof.
  intros Hall.
  destruct (Inv_settle oneYear body paymentMethods st0 sched) as [progs HI].
  exists progs. split; [done|].
  apply Forall2_same_length_lookup_2; [by rewrite (inv_progs _ _ _ _ _ _ _ HI)|].
  intros i pm g Hpm Hg.
  destruct (lookup_lt_is_Some_2
              (settleInvoice oneYear body paymentMethods sched st0).2 i) as [l Hl].
  { rewrite (inv_pool _ _ _ _ _ _ _ HI). by eapply lookup_lt_Some. }
  pose proof (inv_legs _ _ _ _ _ _ _ HI _ _ _ _ Hpm Hl Hg) as Hleg.
  assert (Hf : fulfilled l = true).
  { unfold all_fulfilled in Hall. rewrite forallb_forall in Hall.
    apply Hall, list_elem_of_In. eapply list_elem_of_lookup_2, Hl. }
  destruct g as [|d|d e|d e|od]; simpl in *.
  - subst l. unfold settleLeg, nonzero in *.
    by destruct (Js.ToBoolean (PaymentMethod.amount pm)).
  - destruct Hleg as [Hm ->]. split; [done|].
    unfold addPoints, pointsDue in *.
    by destruct (shouldGivePointsBack body && truthy _).
  - by destruct Hleg as (_ & _ & -> & _).
  - destruct Hleg as (Hm & Hdue & _ & Hp). done.
  - by destruct Hleg as [-> _].
Qed.

Lemma types_exclusive (t : string) :
  String.eqb t "InvoicePaymentSettled" = true ->
  String.eqb t "InvoiceSettled" = false.
Proof. intros Ht. apply String.eqb_eq in Ht. by subst t. Qed.

(** What the block of a partial settlement comes to. *)
Lemma paymentSettled_cases (env : Env) (body : BtcpayBody) (sched : list Pick)
    (st : Store) :
  let row cryptoRate cryptoAmount :=
    {| donations :=
         donations st
         ++ [donation_row (length (donations st))
               (paymentData body cryptoRate cryptoAmount)];
       pointHistory := pointHistory st |} in
  paymentSettled env body sched st
  = inl {| store := st; requested := []; outcome := Json 200 true |}
    /\ Metadata.staticGeneratedForApi (metadata body) = "false"%string
  \/ Metadata.staticGeneratedForApi (metadata body) <> "false"%string
     /\ (paymentSettled env body sched st
         = inl {| store := st; requested := [ratesUrl body]; outcome := Uncaught |}
         \/ exists cryptoRate rates cryptoAmount,
              getRates env (ratesUrl body) = Some (cryptoRate :: rates)
              /\ payment body = Some cryptoAmount
              /\ paymentSettled env body sched st
                 = inr (row cryptoRate cryptoAmount, [ratesUrl body])).
Proof.
  cbv zeta. unfold paymentSettled.
  destruct (String.eqb _ "false") eqn:Hf.
  { left. split; [done|]. by apply String.eqb_eq. }
  right. split; [by intros Hs; apply String.eqb_eq in Hs; congruence|].
  destruct (getRates env (ratesUrl body)) as [[|cryptoRate rates]|]; [by left| |by left].
  destruct (payment body) as [cryptoAmount|]; [|by left].
  destruct (settle_one_create (paymentData body cryptoRate cryptoAmount) sched st)
    as [->|[_ ->]]; cbn; [|by left].
  right. by exists cryptoRate, rates, cryptoAmount.
Qed.

(** X1: a verified event of any other type than the two settlements is
    acknowledged with 200 and [{ success: true }]; nothing is requested
    from BTCPay and nothing is written. *)
Theorem other_events_acknowledged (env : Env) (req : Request) (body : BtcpayBody)
    (sched : list Pick) (st : Store) :
  verified env req body ->
  type body <> "InvoicePaymentSettled"%string ->
  type body <> "InvoiceSettled"%string ->
  handleBtcpayWebhook env req sched st
  = {| store := st; requested := []; outcome := Json 200 true |}.
Proof.
  intros Hv H1 H2. rewrite (handler_verified _ _ _ _ _ Hv). unfold processEvent.
  destruct (String.eqb (type body) "InvoicePaymentSettled") eqn:E1;
    [by apply String.eqb_eq in E1|].
  destruct (String.eqb (type body) "InvoiceSettled") eqn:E2;
    [by apply String.eqb_eq in E2|].
  reflexivity.
Qed.

(** An [InvoiceExpired] event that names a user and asks for points. *)
Lemma other_events_acknowledged_witness :
  let body :=
    {| type := "InvoiceExpired";
       invoiceId := "invoice-3";
       metadata := donor (Some "user-1"%string) "true";
       paymentMethod := None;
       payment := None |} in
  let env := sample_env sample_raw body None None in
  verified env (signed_request sample_raw) body
  /\ type body <> "InvoicePaymentSettled"%string
  /\ type body <> "InvoiceSettled"%string
  /\ handleBtcpayWebhook env (signed_request sample_raw) [] no_rows
     = {| store := no_rows; requested := []; outcome := Json 200 true |}.
Proof.
  cbv zeta.
  set (body := {| type := "InvoiceExpired"; invoiceId := "invoice-3";
                  metadata := donor (Some "user-1"%string) "true";
                  paymentMethod := None; payment := None |}).
  assert (Hv : verified (sample_env sample_raw body None None)
                 (signed_request sample_raw) body).
  { split; [reflexivity|]. split; [reflexivity|].
    exists "sha256=ab12"%string. split; reflexivity. }
  assert (H1 : type body <> "InvoicePaymentSettled"%string) by discriminate.
  assert (H2 : type body <> "InvoiceSettled"%string) by discriminate.
  split; [exact Hv|]. split; [exact H1|]. split; [exact H2|].
  exact (other_events_acknowledged _ _ _ [] no_rows Hv H1 H2).
Defined.

(** X2: the handler only appends to the ledger. For every request,
    whatever BTCPay answers, however the calls interleave and whichever
    of them fail, the rows that were in the two tables before are still
    there afterwards, unchanged and in their places, before any new row. *)
Theorem ledger_append_only (env : Env) (req : Request) (sched : list Pick)
    (st : Store) :
  let r := handleBtcpayWebhook env req sched st in
  donations st `prefix_of` donations (store r)
  /\ pointHistory st `prefix_of` pointHistory (store r).
Proof.
  cbv zeta.
  assert (Hsettled : forall body st1 requested0,
            donations st1 `prefix_of`
              donations (store (invoiceSettled env body sched st1 requested0))
            /\ pointHistory st1 `prefix_of`
                 pointHistory (store (invoiceSettled env body sched st1 requested0))).
  { intros body st1 requested0. unfold invoiceSettled.
    destruct (String.eqb _ "true"); [done|].
    destruct (getPaymentMethods env (paymentMethodsUrl body)) as [pms|]; [|done].
    destruct (settlement_summary (oneYearFromNow env) body pms sched st1)
      as (newd & newe & Hd & He & _).
    destruct (settleInvoice _ _ _ _ _) as [st' legs]. simpl in *.
    rewrite Hd, He. split; by apply prefix_app_r. }
  assert (Hevent : forall body,
            donations st `prefix_of` donations (store (processEvent env body sched st))
            /\ pointHistory st `prefix_of`
                 pointHistory (store (processEvent env body sched st))).
  { intros body. unfold processEvent.
    destruct (String.eqb (type body) "InvoicePaymentSettled").
    - destruct (paymentSettled_cases env body sched st)
        as [[-> _]|[_ [->|(cr & rs & ca & _ & _ & ->)]]]; [done|done|].
      destruct (Hsettled body
                  {| donations :=
                       donations st
                       ++ [donation_row (length (donations st)) (paymentData body cr ca)];
                     pointHistory := pointHistory st |} [ratesUrl body]) as [H1 H2].
      destruct (String.eqb (type body) "InvoiceSettled").
      + split; [|exact H2]. etrans; [|exact H1]. by apply prefix_app_r.
      + split; [by apply prefix_app_r|done].
    - destruct (String.eqb (type body) "InvoiceSettled"); [apply Hsettled|done]. }
  unfold handleBtcpayWebhook.
  destruct (is_string (method req) "POST"); [|done]. cbn [negb].
  destruct (btcpay_sig req) as [|sig|l]; [done| |done].
  destruct (JSON_parse env (rawBody req)) as [body|]; [|done].
  destruct (is_string _ _); [apply Hevent|done].
Qed.

(** X3: when what the handler needs from outside is missing, it throws
    after the one query and writes nothing. For a partial settlement that
    is a failed rate query, an empty list of rates, or a body without its
    [payment]; for a full settlement a failed payment-method query. *)
Theorem upstream_failure_writes_nothing (env : Env) (req : Request)
    (body : BtcpayBody) (sched : list Pick) (st : Store) :
  verified env req body ->
  let r := handleBtcpayWebhook env req sched st in
  (type body = "InvoicePaymentSettled"%string ->
   Metadata.staticGeneratedForApi (metadata body) <> "false"%string ->
   getRates env (ratesUrl body) = None
   \/ getRates env (ratesUrl body) = Some []
   \/ payment body = None ->
   r = {| store := st; requested := [ratesUrl body]; outcome := Uncaught |})
  /\ (type body = "InvoiceSettled"%string ->
      Metadata.staticGeneratedForApi (metadata body) <> "true"%string ->
      getPaymentMethods env (paymentMethodsUrl body) = None ->
      r = {| store := st; requested := [paymentMethodsUrl body];
             outcome := Uncaught |}).
Proof.
  intros Hv. cbv zeta. rewrite (handler_verified _ _ _ _ _ Hv).
  unfold processEvent. split.
  - intros -> Hflag Hmiss. cbn [String.eqb Ascii.eqb Bool.eqb].
    unfold paymentSettled.
    destruct (String.eqb _ "false") eqn:Hf; [by apply String.eqb_eq in Hf|].
    destruct Hmiss as [->|[->|Hp]]; [done|done|]. rewrite Hp.
    by destruct (getRates env (ratesUrl body)) as [[|? ?]|].
  - intros -> Hflag Hmiss. cbn [String.eqb Ascii.eqb Bool.eqb].
    unfold invoiceSettled.
    destruct (String.eqb _ "true") eqn:Hf; [by apply String.eqb_eq in Hf|].
    by rewrite Hmiss.
Qed.

(** A payment toward an API invoice when BTCPay has no rate to give. *)
Lemma upstream_failure_writes_nothing_witness :
  let body :=
    payment_settled (api_donor (Some "user-1"%string) "true" "false") "0.5" in
  let env := sample_env sample_raw body (Some []) None in
  verified env (signed_request sample_raw) body
  /\ let r := handleBtcpayWebhook env (signed_request sample_raw) [] no_rows in
     (type body = "InvoicePaymentSettled"%string ->
      Metadata.staticGeneratedForApi (metadata body) <> "false"%string ->
      getRates env (ratesUrl body) = None
      \/ getRates env (ratesUrl body) = Some []
      \/ payment body = None ->
      r = {| store := no_rows; requested := [ratesUrl body]; outcome := Uncaught |})
     /\ (type body = "InvoiceSettled"%string ->
         Metadata.staticGeneratedForApi (metadata body) <> "true"%string ->
         getPaymentMethods env (paymentMethodsUrl body) = None ->
         r = {| store := no_rows; requested := [paymentMethodsUrl body];
                outcome := Uncaught |}).
Proof.
  cbv zeta.
  set (body := payment_settled (api_donor (Some "user-1"%string) "true" "false") "0.5").
  assert (Hv : verified (sample_env sample_raw body (Some []) None)
                 (signed_request sample_raw) body).
  { split; [reflexivity|]. split; [reflexivity|].
    exists "sha256=ab12"%string. split; reflexivity. }
  split; [exact Hv|].
  exact (upstream_failure_writes_nothing _ _ _ [] no_rows Hv).
Defined.

(** X4: the handler asks BTCPay at most one thing, and only for a verified
    event that is not skipped: the rate of the payment's currency for a
    partial settlement, the payment methods of the invoice for a full
    settlement. No event runs both blocks. *)
Theorem one_query_at_most (env : Env) (req : Request) (sched : list Pick)
    (st : Store) :
  let r := handleBtcpayWebhook env req sched st in
  requested r = []
  \/ exists body,
       verified env req body
       /\ (type body = "InvoicePaymentSettled"%string
           /\ Metadata.staticGeneratedForApi (metadata body) <> "false"%string
           /\ requested r = [ratesUrl body]
           \/ type body = "InvoiceSettled"%string
              /\ Metadata.staticGeneratedForApi (metadata body) <> "true"%string
              /\ requested r = [paymentMethodsUrl body]).
Proof.
  cbv zeta. unfold handleBtcpayWebhook.
  destruct (is_string (method req) "POST") eqn:Hm; [|by left]. cbn [negb].
  destruct (btcpay_sig req) as [|sig|l] eqn:Hsig; [by left| |by left].
  destruct (JSON_parse env (rawBody req)) as [body|] eqn:Hb; [|by left].
  destruct (is_string (Js.split "=" sig !! 1%nat) _) eqn:Hs; [|by left]. cbn [negb].
  assert (Hv : verified env req body).
  { split; [by apply is_string_spec|]. split; [done|].
    exists sig. split; [done|]. by apply is_string_spec. }
  unfold processEvent.
  destruct (String.eqb (type body) "InvoicePaymentSettled") eqn:E1.
  - rewrite (types_exclusive _ E1). apply String.eqb_eq in E1.
    destruct (paymentSettled_cases env body sched st)
      as [[-> _]|[Hf [->|(cr & rs & ca & _ & _ & ->)]]]; [by left| |];
      right; exists body; (split; [done|]); by left.
  - destruct (String.eqb (type body) "InvoiceSettled") eqn:E2; [|by left].
    apply String.eqb_eq in E2. unfold invoiceSettled.
    destruct (String.eqb _ "true") eqn:Hf; [by left|].
    assert (Hne : Metadata.staticGeneratedForApi (metadata body) <> "true"%string).
    { intros H. apply String.eqb_eq in H. congruence. }
    right. exists body. split; [done|]. right. split; [done|]. split; [done|].
    destruct (getPaymentMethods env (paymentMethodsUrl body)); [|done].
    by destruct (settleInvoice _ _ _ _ _).
Qed.

(** X5: when no Prisma call fails, a verified full settlement is answered
    with 200 and [{ success: true }], after the one query for the payment
    methods, however the calls of its legs interleave. *)
Theorem quiet_settlement_succeeds (env : Env) (req : Request) (body : BtcpayBody)
    (sched : list Pick) (st : Store) (paymentMethods : list PaymentMethod.t) :
  verified env req body ->
  type body = "InvoiceSettled"%string ->
  Metadata.staticGeneratedForApi (metadata body) <> "true"%string ->
  getPaymentMethods env (paymentMethodsUrl body) = Some paymentMethods ->
  quiet sched = true ->
  let r := handleBtcpayWebhook env req sched st in
  outcome r = Json 200 true /\ requested r = [paymentMethodsUrl body].
Proof.
  intros Hv Ht Hflag Hpm Hq. cbv zeta.
  rewrite (handler_settles _ _ _ _ _ _ Hv Ht Hflag Hpm). cbn [outcome requested].
  by rewrite quiet_all_fulfilled.
Qed.

Lemma quiet_settlement_succeeds_witness :
  let body := invoice_settled (donor (Some "user-1"%string) "true") in
  let pms := [paid "BTC" "10" "1"; paid "XMR" "5" "1"] in
  let env := sample_env sample_raw body None (Some pms) in
  verified env (signed_request sample_raw) body
  /\ type body = "InvoiceSettled"%string
  /\ Metadata.staticGeneratedForApi (metadata body) <> "true"%string
  /\ getPaymentMethods env (paymentMethodsUrl body) = Some pms
  /\ quiet in_turn = true
  /\ let r := handleBtcpayWebhook env (signed_request sample_raw) in_turn no_rows in
     outcome r = Json 200 true /\ requested r = [paymentMethodsUrl body].
Proof.
  cbv zeta.
  set (body := invoice_settled (donor (Some "user-1"%string) "true")).
  set (pms := [paid "BTC" "10" "1"; paid "XMR" "5" "1"]).
  assert (Hv : verified (sample_env sample_raw body None (Some pms))
                 (signed_request sample_raw) body).
  { split; [reflexivity|]. split; [reflexivity|].
    exists "sha256=ab12"%string. split; reflexivity. }
  assert (Hf : Metadata.staticGeneratedForApi (metadata body) <> "true"%string)
    by discriminate.
  split; [exact Hv|]. split; [reflexivity|]. split; [exact Hf|].
  split; [reflexivity|]. split; [reflexivity|].
  exact (quiet_settlement_succeeds _ _ _ in_turn no_rows pms Hv eq_refl Hf eq_refl eq_refl).
Defined.

(** X6: the answer 200 to a verified full settlement means that the
    ledger is complete, also in a run in which calls were picked to fail:
    every payment method with a nonzero amount has its donation, and, when
    points are due, every donation has its points entry; otherwise no
    points entry was written. *)
Theorem answered_settlement_is_complete (env : Env) (req : Request)
    (body : BtcpayBody) (sched : list Pick) (st : Store)
    (paymentMethods : list PaymentMethod.t) :
  verified env req body ->
  type body = "InvoiceSettled"%string ->
  Metadata.staticGeneratedForApi (metadata body) <> "true"%string ->
  getPaymentMethods env (paymentMethodsUrl body) = Some paymentMethods ->
  let r := handleBtcpayWebhook env req sched st in
  outcome r = Json 200 true ->
  exists newd newe,
    donations (store r) = donations st ++ newd
    /\ pointHistory (store r) = pointHistory st ++ newe
    /\ length newd = length (List.filter nonzero paymentMethods)
    /\ length newe = if pointsDue body then length newd else 0%nat.
Proof.
  intros Hv Ht Hflag Hpm. cbv zeta.
  rewrite (handler_settles _ _ _ _ _ _ Hv Ht Hflag Hpm). cbn [outcome store].
  destruct (all_fulfilled _) eqn:Hall; [intros _|discriminate].
  destruct (fulfilled_settled _ _ _ _ _ Hall) as (progs & HI & Hfin).
  destruct (inv_donations _ _ _ _ _ _ _ HI) as (newd & Hd & Hdp).
  destruct (inv_entries _ _ _ _ _ _ _ HI) as (newe & He & Hep).
  exists newd, newe. split; [done|]. split; [done|].
  rewrite Hdp, Hep. split.
  - by apply (donations_counted _ _ _ _ _ _ _ Hfin).
  - by eapply entries_counted.
Qed.

(** A run in which a call of a leg that does not exist is picked to fail:
    the answer is 200 and the ledger is complete. *)
Lemma answered_settlement_is_complete_witness :
  let body := invoice_settled (donor (Some "user-1"%string) "true") in
  let pms := [paid "BTC" "10" "1"; paid "XMR" "0" "1"] in
  let env := sample_env sample_raw body None (Some pms) in
  let sched := [pick 0; pick_failing 5] in
  verified env (signed_request sample_raw) body
  /\ type body = "InvoiceSettled"%string
  /\ Metadata.staticGeneratedForApi (metadata body) <> "true"%string
  /\ getPaymentMethods env (paymentMethodsUrl body) = Some pms
  /\ let r := handleBtcpayWebhook env (signed_request sample_raw) sched no_rows in
     outcome r = Json 200 true
     /\ exists newd newe,
          donations (store r) = donations no_rows ++ newd
          /\ pointHistory (store r) = pointHistory no_rows ++ newe
          /\ length newd = length (List.filter nonzero pms)
          /\ length newe = if pointsDue body then length newd else 0%nat.
Proof.
  cbv zeta.
  set (body := invoice_settled (donor (Some "user-1"%string) "true")).
  set (pms := [paid "BTC" "10" "1"; paid "XMR" "0" "1"]).
  assert (Hv : verified (sample_env sample_raw body None (Some pms))
                 (signed_request sample_raw) body).
  { split; [reflexivity|]. split; [reflexivity|].
    exists "sha256=ab12"%string. split; reflexivity. }
  assert (Hf : Metadata.staticGeneratedForApi (metadata body) <> "true"%string)
    by discriminate.
  assert (Hout : outcome (handleBtcpayWebhook (sample_env sample_raw body None (Some pms))
                            (signed_request sample_raw) [pick 0; pick_failing 5] no_rows)
                 = Json 200 true) by (vm_compute; reflexivity).
  split; [exact Hv|]. split; [reflexivity|]. split; [exact Hf|].
  split; [reflexivity|]. split; [exact Hout|].
  exact (answered_settlement_is_complete _ _ _ [pick 0; pick_failing 5] no_rows pms
           Hv eq_refl Hf eq_refl Hout).
Defined.

(** X7: the handler keeps no record of the events it has handled: when a
    verified full settlement is delivered a second time, it is settled a
    second time. With no failing call, both deliveries are answered with
    200, and the ledger ends with two donations for every payment method
    with a nonzero amount and, when points are due, two points entries. *)
Theorem redelivery_settles_again (env : Env) (req : Request) (body : BtcpayBody)
    (sched1 sched2 : list Pick) (st : Store)
    (paymentMethods : list PaymentMethod.t) :
  verified env req body ->
  type body = "InvoiceSettled"%string ->
  Metadata.staticGeneratedForApi (metadata body) <> "true"%string ->
  getPaymentMethods env (paymentMethodsUrl body) = Some paymentMethods ->
  quiet sched1 = true -> quiet sched2 = true ->
  let r1 := handleBtcpayWebhook env req sched1 st in
  let r2 := handleBtcpayWebhook env req sched2 (store r1) in
  let n := length (List.filter nonzero paymentMethods) in
  outcome r1 = Json 200 true /\ outcome r2 = Json 200 true
  /\ length (donations (store r2)) = (length (donations st) + 2 * n)%nat
  /\ length (pointHistory (store r2))
     = (length (pointHistory st) + if pointsDue body then 2 * n else 0)%nat.
Proof.
  intros Hv Ht Hflag Hpm Hq1 Hq2. cbv zeta.
  rewrite !(handler_settles _ _ _ _ _ _ Hv Ht Hflag Hpm). cbn [outcome store].
  rewrite !quiet_all_fulfilled by done.
  destruct (settlement_summary (oneYearFromNow env) body paymentMethods sched1 st)
    as (d1 & e1 & Hd1 & He1 & _ & _ & _ & Hc1). cbv zeta in Hd1, He1, Hc1.
  destruct (Hc1 Hq1) as (Hn1 & _ & _ & Hm1).
  set (st1 := (settleInvoice (oneYearFromNow env) body paymentMethods sched1 st).1) in *.
  destruct (settlement_summary (oneYearFromNow env) body paymentMethods sched2 st1)
    as (d2 & e2 & Hd2 & He2 & _ & _ & _ & Hc2). cbv zeta in Hd2, He2, Hc2.
  destruct (Hc2 Hq2) as (Hn2 & _ & _ & Hm2).
  split; [done|]. split; [done|].
  rewrite Hd2, He2, Hd1, He1, !length_app, Hm1, Hm2, Hn1, Hn2.
  destruct (pointsDue body); lia.
Qed.

Lemma redelivery_settles_again_witness :
  let body := invoice_settled (donor (Some "user-1"%string) "true") in
  let pms := [paid "BTC" "10" "1"; paid "XMR" "5" "1"] in
  let env := sample_env sample_raw body None (Some pms) in
  let req := signed_request sample_raw in
  verified env req body
  /\ type body = "InvoiceSettled"%string
  /\ Metadata.staticGeneratedForApi (metadata body) <> "true"%string
  /\ getPaymentMethods env (paymentMethodsUrl body) = Some pms
  /\ quiet in_turn = true /\ quiet [] = true
  /\ let r1 := handleBtcpayWebhook env req in_turn no_rows in
     let r2 := handleBtcpayWebhook env req [] (store r1) in
     let n := length (List.filter nonzero pms) in
     outcome r1 = Json 200 true /\ outcome r2 = Json 200 true
     /\ length (donations (store r2)) = (length (donations no_rows) + 2 * n)%nat
     /\ length (pointHistory (store r2))
        = (length (pointHistory no_rows) + if pointsDue body then 2 * n else 0)%nat.
Proof.
  cbv zeta.
  set (body := invoice_settled (donor (Some "user-1"%string) "true")).
  set (pms := [paid "BTC" "10" "1"; paid "XMR" "5" "1"]).
  assert (Hv : verified (sample_env sample_raw body None (Some pms))
                 (signed_request sample_raw) body).
  { split; [reflexivity|]. split; [reflexivity|].
    exists "sha256=ab12"%string. split; reflexivity. }
  assert (Hf : Metadata.staticGeneratedForApi (metadata body) <> "true"%string)
    by discriminate.
  split; [exact Hv|]. split; [reflexivity|]. split; [exact Hf|].
  split; [reflexivity|]. split; [reflexivity|]. split; [reflexivity|].
  exact (redelivery_settles_again _ _ _ in_turn [] no_rows pms
           Hv eq_refl Hf eq_refl eq_refl eq_refl).
Defined.

(** X8: points are granted on request only. A verified full settlement
    whose [givePointsBack] is not ['true'] writes no points entry, and the
    donations it writes carry 0 points, whatever the amounts, the
    interleaving of the legs and the calls that fail. *)
Theorem no_points_without_request (env : Env) (req : Request) (body : BtcpayBody)
    (sched : list Pick) (st : Store) :
  verified env req body ->
  type body = "InvoiceSettled"%string ->
  Metadata.givePointsBack (metadata body) <> "true"%string ->
  let r := handleBtcpayWebhook env req sched st in
  pointHistory (store r) = pointHistory st
  /\ exists newd,
       donations (store r) = donations st ++ newd
       /\ Forall (fun d => Donation.pointsAdded d = zero) newd.
Proof.
  intros Hv Ht Hno. cbv zeta. rewrite (handler_verified _ _ _ _ _ Hv).
  unfold processEvent, invoiceSettled. rewrite Ht.
  cbn [String.eqb Ascii.eqb Bool.eqb].
  assert (Hs : shouldGivePointsBack body = false).
  { unfold shouldGivePointsBack. destruct (String.eqb _ "true") eqn:E; [|done].
    by apply String.eqb_eq in E. }
  destruct (String.eqb _ "true");
    [cbn [store]; split; [done|]; exists []; by rewrite app_nil_r|].
  destruct (getPaymentMethods env (paymentMethodsUrl body)) as [pms|];
    [|cbn [store]; split; [done|]; exists []; by rewrite app_nil_r].
  destruct (settlement_summary (oneYearFromNow env) body pms sched st)
    as (newd & newe & Hd & He & Hmade & Hent & _). cbv zeta in Hd, He, Hent.
  destruct (settleInvoice _ _ _ _ _) as [st' legs]. cbn [fst store] in *.
  split.
  - destruct newe as [|e newe]; [by rewrite He, app_nil_r|].
    apply Forall_cons_1 in Hent as [[Hdue _] _].
    unfold pointsDue in Hdue. by rewrite Hs in Hdue.
  - exists newd. split; [done|]. eapply Forall_impl; [exact Hmade|]. cbv beta.
    intros d (pm & _ & _ & ->). cbn [donation_row Donation.pointsAdded donationData
      DonationData.pointsAdded default]. unfold pointsAdded. by rewrite Hs.
Qed.

(** A donor who is logged in and pays with two methods, without asking
    for points. *)
Lemma no_points_without_request_witness :
  let body := invoice_settled (donor (Some "user-1"%string) "false") in
  let pms := [paid "BTC" "10" "1"; paid "XMR" "5" "1"] in
  let env := sample_env sample_raw body None (Some pms) in
  let req := signed_request sample_raw in
  verified env req body
  /\ type body = "InvoiceSettled"%string
  /\ Metadata.givePointsBack (metadata body) <> "true"%string
  /\ let r := handleBtcpayWebhook env req in_turn no_rows in
     pointHistory (store r) = pointHistory no_rows
     /\ exists newd,
          donations (store r) = donations no_rows ++ newd
          /\ Forall (fun d => Donation.pointsAdded d = zero) newd.
Proof.
  cbv zeta.
  set (body := invoice_settled (donor (Some "user-1"%string) "false")).
  set (pms := [paid "BTC" "10" "1"; paid "XMR" "5" "1"]).
  assert (Hv : verified (sample_env sample_raw body None (Some pms))
                 (signed_request sample_raw) body).
  { split; [reflexivity|]. split; [reflexivity|].
    exists "sha256=ab12"%string. split; reflexivity. }
  assert (Hf : Metadata.givePointsBack (metadata body) <> "true"%string)
    by discriminate.
  split; [exact Hv|]. split; [reflexivity|]. split; [exact Hf|].
  exact (no_points_without_request _ _ _ in_turn no_rows Hv eq_refl Hf).
Defined.

(** *** Legs that run one after the other *)






(** *** Partial settlements: the currency, and the flag that tells the two
    blocks apart *)

(** X10: a partial settlement knows two currencies only. A payment whose
    method is anything but ['BTC-OnChain'] (a Lightning payment, or a body
    without the field) is priced at the rate of [XMR_USD], and the donation
    it writes has the currency ['XMR']. *)
Theorem other_methods_are_monero (env : Env) (req : Request) (body : BtcpayBody)
    (sched : list Pick) (st : Store) :
  verified env req body ->
  type body = "InvoicePaymentSettled"%string ->
  Metadata.staticGeneratedForApi (metadata body) <> "false"%string ->
  paymentMethod body <> Some "BTC-OnChain"%string ->
  let r := handleBtcpayWebhook env req sched st in
  requested r = ["/rates?currencyPair=XMR_USD"%string]
  /\ exists newd,
       donations (store r) = donations st ++ newd
       /\ Forall (fun d => Donation.cryptoCode d = "XMR"%string) newd.
Proof.
  intros Hv Ht Hflag Hm. cbv zeta. rewrite (handler_verified _ _ _ _ _ Hv).
  assert (Hc : cryptoCodeOf body = "XMR"%string).
  { unfold cryptoCodeOf. destruct (is_string _ _) eqn:E; [|done].
    by apply is_string_spec in E. }
  assert (Hu : ratesUrl body = "/rates?currencyPair=XMR_USD"%string).
  { unfold ratesUrl. by rewrite Hc. }
  unfold processEvent. rewrite Ht. cbn [String.eqb Ascii.eqb Bool.eqb].
  destruct (paymentSettled_cases env body sched st)
    as [[_ Hf]|[_ [->|(cr & rs & ca & _ & _ & ->)]]]; [done| |];
    cbn [requested store donations]; rewrite Hu; (split; [done|]).
  - exists []. by rewrite app_nil_r.
  - eexists. split; [done|]. apply Forall_singleton.
    cbn [donation_row paymentData Donation.cryptoCode DonationData.cryptoCode].
    exact Hc.
Qed.

(** A Lightning payment toward an API invoice. *)
Lemma other_methods_are_monero_witness :
  let body :=
    {| type := "InvoicePaymentSettled";
       invoiceId := "invoice-3";
       metadata := api_donor None "false" "false";
       paymentMethod := Some "BTC-LightningNetwork"%string;
       payment := Some (Js.Number_ofString "0.5") |} in
  let env := sample_env sample_raw body (Some [Js.of_Z 60000]) None in
  let req := signed_request sample_raw in
  verified env req body
  /\ type body = "InvoicePaymentSettled"%string
  /\ Metadata.staticGeneratedForApi (metadata body) <> "false"%string
  /\ paymentMethod body <> Some "BTC-OnChain"%string
  /\ let r := handleBtcpayWebhook env req [] no_rows in
     requested r = ["/rates?currencyPair=XMR_USD"%string]
     /\ exists newd,
          donations (store r) = donations no_rows ++ newd
          /\ Forall (fun d => Donation.cryptoCode d = "XMR"%string) newd.
Proof.
  cbv zeta.
  set (body := {| type := "InvoicePaymentSettled";
                  invoiceId := "invoice-3";
                  metadata := api_donor None "false" "false";
                  paymentMethod := Some "BTC-LightningNetwork"%string;
                  payment := Some (Js.Number_ofString "0.5") |}).
  assert (Hv : verified (sample_env sample_raw body (Some [Js.of_Z 60000]) None)
                 (signed_request sample_raw) body).
  { split; [reflexivity|]. split; [reflexivity|].
    exists "sha256=ab12"%string. split; reflexivity. }
  assert (Hf : Metadata.staticGeneratedForApi (metadata body) <> "false"%string)
    by discriminate.
  assert (Hm : paymentMethod body <> Some "BTC-OnChain"%string) by discriminate.
  split; [exact Hv|]. split; [reflexivity|]. split; [exact Hf|]. split; [exact Hm|].
  exact (other_methods_are_monero _ _ _ [] no_rows Hv eq_refl Hf Hm).
Defined.

(** X11: only the flag [staticGeneratedForApi] keeps the two blocks from
    recording an invoice twice, and only when it is ['true'] or ['false'].
    For an invoice whose metadata has any other text there, the partial
    settlement writes its donation and the full settlement writes one more
    for every payment method with a nonzero amount. *)
Theorem unflagged_invoice_recorded_twice (env : Env) (req1 req2 : Request)
    (body1 body2 : BtcpayBody) (sched1 sched2 : list Pick) (st : Store)
    (cryptoRate cryptoAmount : Js.number) (rates : list Js.number)
    (paymentMethods : list PaymentMethod.t) :
  verified env req1 body1 -> verified env req2 body2 ->
  type body1 = "InvoicePaymentSettled"%string ->
  type body2 = "InvoiceSettled"%string ->
  invoiceId body1 = invoiceId body2 ->
  metadata body1 = metadata body2 ->
  Metadata.staticGeneratedForApi (metadata body1) <> "true"%string ->
  Metadata.staticGeneratedForApi (metadata body1) <> "false"%string ->
  getRates env (ratesUrl body1) = Some (cryptoRate :: rates) ->
  payment body1 = Some cryptoAmount ->
  getPaymentMethods env (paymentMethodsUrl body2) = Some paymentMethods ->
  quiet sched1 = true -> quiet sched2 = true ->
  let r1 := handleBtcpayWebhook env req1 sched1 st in
  let r2 := handleBtcpayWebhook env req2 sched2 (store r1) in
  outcome r1 = Json 200 true /\ outcome r2 = Json 200 true
  /\ exists d newd,
       donations (store r2) = donations st ++ d :: newd
       /\ Donation.btcPayInvoiceId d = invoiceId body1
       /\ Forall (fun d' => Donation.btcPayInvoiceId d' = invoiceId body1) newd
       /\ length newd = length (List.filter nonzero paymentMethods).
Proof.
  intros Hv1 Hv2 Ht1 Ht2 Hid Hmd Hnt Hnf Hr Hp Hpm Hq1 Hq2. cbv zeta.
  rewrite Hmd in Hnt.
  set (d := donation_row (length (donations st))
              (paymentData body1 cryptoRate cryptoAmount)).
  set (st1 := {| donations := donations st ++ [d]; pointHistory := pointHistory st |}).
  assert (H1 : handleBtcpayWebhook env req1 sched1 st
               = {| store := st1; requested := [ratesUrl body1];
                    outcome := Json 200 true |}).
  { rewrite (handler_verified _ _ _ _ _ Hv1).
    unfold processEvent, paymentSettled. rewrite Ht1.
    cbn [String.eqb Ascii.eqb Bool.eqb].
    destruct (String.eqb _ "false") eqn:Hf; [by apply String.eqb_eq in Hf|].
    rewrite Hr, Hp.
    destruct (settle_one_create (paymentData body1 cryptoRate cryptoAmount) sched1 st)
      as [->|[Hq ->]]; [done|congruence]. }
  rewrite H1. cbn [store outcome].
  rewrite (handler_settles _ _ _ _ _ _ Hv2 Ht2 Hnt Hpm). cbn [store outcome].
  rewrite quiet_all_fulfilled by done.
  split; [done|]. split; [done|].
  destruct (settlement_summary (oneYearFromNow env) body2 paymentMethods sched2 st1)
    as (newd & newe & Hd & _ & Hmade & _ & _ & Hc). cbv zeta in Hd, Hc.
  destruct (Hc Hq2) as (Hn & _).
  exists d, newd. split; [|split; [|split]].
  - rewrite Hd. unfold st1. cbn [donations]. by rewrite <- app_assoc.
  - reflexivity.
  - eapply Forall_impl; [exact Hmade|]. cbv beta.
    intros d' (pm & _ & _ & ->). by rewrite Hid.
  - done.
Qed.

(** An invoice whose metadata leaves the flag empty, paid with 0.5 BTC. *)
Lemma unflagged_invoice_recorded_twice_witness :
  let md :=
    {| Metadata.userId := None;
       Metadata.projectName := "Monero Fund";
       Metadata.projectSlug := "monero";
       Metadata.fundSlug := "general";
       Metadata.staticGeneratedForApi := "";
       Metadata.givePointsBack := "false";
       Metadata.isMembership := "false" |} in
  let body1 :=
    {| type := "InvoicePaymentSettled"; invoiceId := "invoice-4"; metadata := md;
       paymentMethod := Some "BTC-OnChain"%string;
       payment := Some (Js.Number_ofString "0.5") |} in
  let body2 :=
    {| type := "InvoiceSettled"; invoiceId := "invoice-4"; metadata := md;
       paymentMethod := None; payment := None |} in
  let pms := [paid "BTC" "60000" "0.5"] in
  let env :=
    {| BTCPAY_WEBHOOK_SECRET := "secret";
       createHmac_sha256_hex := fun _ _ => "ab12"%string;
       JSON_parse := fun s =>
         if String.eqb s "<the payment>" then Some body1
         else if String.eqb s "<the settlement>" then Some body2 else None;
       getRates := fun _ => Some [Js.of_Z 60000];
       getPaymentMethods := fun _ => Some pms;
       oneYearFromNow := 1800000000000 |} in
  let req1 := signed_request "<the payment>" in
  let req2 := signed_request "<the settlement>" in
  let r1 := handleBtcpayWebhook env req1 [] no_rows in
  let r2 := handleBtcpayWebhook env req2 [] (store r1) in
  outcome r1 = Json 200 true /\ outcome r2 = Json 200 true
  /\ exists d newd,
       donations (store r2) = donations no_rows ++ d :: newd
       /\ Donation.btcPayInvoiceId d = invoiceId body1
       /\ Forall (fun d' => Donation.btcPayInvoiceId d' = invoiceId body1) newd
       /\ length newd = length (List.filter nonzero pms).
Proof.
  cbv zeta.
  set (md := {| Metadata.userId := None;
                Metadata.projectName := "Monero Fund";
                Metadata.projectSlug := "monero";
                Metadata.fundSlug := "general";
                Metadata.staticGeneratedForApi := "";
                Metadata.givePointsBack := "false";
                Metadata.isMembership := "false" |}).
  set (body1 := {| type := "InvoicePaymentSettled"; invoiceId := "invoice-4";
                   metadata := md; paymentMethod := Some "BTC-OnChain"%string;
                   payment := Some (Js.Number_ofString "0.5") |}).
  set (body2 := {| type := "InvoiceSettled"; invoiceId := "invoice-4";
                   metadata := md; paymentMethod := None; payment := None |}).
  set (env := {| BTCPAY_WEBHOOK_SECRET := "secret"; JSON_parse := _ |}).
  assert (Hv1 : verified env (signed_request "<the payment>") body1).
  { split; [reflexivity|]. split; [reflexivity|].
    exists "sha256=ab12"%string. split; reflexivity. }
  assert (Hv2 : verified env (signed_request "<the settlement>") body2).
  { split; [reflexivity|]. split; [reflexivity|].
    exists "sha256=ab12"%string. split; reflexivity. }
  assert (Hnt : Metadata.staticGeneratedForApi (metadata body1) <> "true"%string)
    by discriminate.
  assert (Hnf : Metadata.staticGeneratedForApi (metadata body1) <> "false"%string)
    by discriminate.
  exact (unflagged_invoice_recorded_twice env _ _ body1 body2 [] [] no_rows
           (Js.of_Z 60000) (Js.Number_ofString "0.5") []
           [paid "BTC" "60000" "0.5"]
           Hv1 Hv2 eq_refl eq_refl eq_refl eq_refl Hnt Hnf eq_refl eq_refl eq_refl
           eq_refl eq_refl).
Defined.

(** *** What stays when a leg fails *)

(** X12: nothing is rolled back. A leg of a full settlement that has
    returned keeps its rows also when another leg has thrown and the
    handler with it: the donation of its payment method is in the table,
    and, when points are due, so is the points entry of that donation. *)
Theorem returned_leg_keeps_rows (oneYear : Z) (body : BtcpayBody)
    (paymentMethods : list PaymentMethod.t) (sched : list Pick) (st0 : Store)
    (i : nat) (pm : PaymentMethod.t) :
  paymentMethods !! i = Some pm ->
  nonzero pm = true ->
  (settleInvoice oneYear body paymentMethods sched st0).2 !! i = Some (Return tt) ->
  let st' := (settleInvoice oneYear body paymentMethods sched st0).1 in
  exists newd newe d,
    donations st' = donations st0 ++ newd
    /\ pointHistory st' = pointHistory st0 ++ newe
    /\ d ∈ newd /\ made oneYear body pm d
    /\ (pointsDue body = true ->
        exists e, e ∈ newe
                  /\ PointHistory.donationId e = Donation.id d
                  /\ PointHistory.pointsAdded e = Donation.pointsAdded d).
Proof.
  intros Hpm Hnz Hl. cbv zeta.
  destruct (settled_legs oneYear body paymentMethods sched st0)
    as (progs & HI & Hfin).
  destruct (inv_donations _ _ _ _ _ _ _ HI) as (newd & Hd & Hdp).
  destruct (inv_entries _ _ _ _ _ _ _ HI) as (newe & He & Hep).
  destruct (Forall2_lookup_l _ _ _ _ _ Hfin Hpm) as (g & Hg & Hs).
  pose proof (inv_legs _ _ _ _ _ _ _ HI _ _ _ _ Hpm Hl Hg) as Hleg.
  assert (Hin : forall d, d ∈ dons_of g -> d ∈ newd).
  { intros d Hdg. rewrite Hdp. apply list_elem_of_bind. exists g.
    split; [done|]. by eapply list_elem_of_lookup_2. }
  assert (Hine : forall e, e ∈ ents_of g -> e ∈ newe).
  { intros e Heg. rewrite Hep. apply list_elem_of_bind. exists g.
    split; [done|]. by eapply list_elem_of_lookup_2. }
  destruct g as [|d|d e|d e|od]; cbn [LegAt Settled] in Hleg, Hs.
  - congruence.
  - destruct Hs as [Hm Hdue]. exists newd, newe, d.
    do 2 (split; [done|]). split; [apply Hin; by apply list_elem_of_singleton|].
    split; [done|]. congruence.
  - done.
  - destruct Hs as (Hm & Hdue & p & mid & post & Hp & _ & Heq).
    exists newd, newe, d.
    do 2 (split; [done|]). split; [apply Hin; by apply list_elem_of_singleton|].
    split; [done|]. intros _. exists e.
    split; [apply Hine; by apply list_elem_of_singleton|].
    destruct Hm as [_ Hrow]. rewrite Heq. split; [reflexivity|]. by rewrite Hrow.
  - by destruct Hleg.
Qed.

(** Two payment methods of which the second fails at its first call: the
    first keeps its donation and its entry. *)
Lemma returned_leg_keeps_rows_witness :
  let body := invoice_settled (donor (Some "user-1"%string) "true") in
  let pms := [paid "BTC" "10" "1"; paid "XMR" "5" "1"] in
  let sched := [pick_failing 1] in
  all_fulfilled (settleInvoice 0 body pms sched no_rows).2 = false
  /\ let st' := (settleInvoice 0 body pms sched no_rows).1 in
     exists newd newe d,
       donations st' = donations no_rows ++ newd
       /\ pointHistory st' = pointHistory no_rows ++ newe
       /\ d ∈ newd /\ made 0 body (paid "BTC" "10" "1") d
       /\ (pointsDue body = true ->
           exists e, e ∈ newe
                     /\ PointHistory.donationId e = Donation.id d
                     /\ PointHistory.pointsAdded e = Donation.pointsAdded d).
Proof.
  cbv zeta. split; [vm_compute; reflexivity|].
  apply (returned_leg_keeps_rows 0
           (invoice_settled (donor (Some "user-1"%string) "true"))
           [paid "BTC" "10" "1"; paid "XMR" "5" "1"] [pick_failing 1] no_rows 0%nat
           (paid "BTC" "10" "1")); vm_compute; reflexivity.
Defined.

(** *** What a donation says of its event *)

(** X13: every donation the handler writes belongs to the event it
    handles: it has the invoice id of the event and the project and fund of
    its metadata. The user of the metadata and a membership expiry (one
    year from now, when [isMembership] is ['true']) are recorded by a full
    settlement only; the donation of a partial settlement has neither. *)
Theorem donations_carry_the_event (env : Env) (req : Request) (sched : list Pick)
    (st : Store) :
  let r := handleBtcpayWebhook env req sched st in
  exists newd,
    donations (store r) = donations st ++ newd
    /\ (newd = []
        \/ exists body,
             verified env req body
             /\ Forall (fun d =>
                  let full := String.eqb (type body) "InvoiceSettled" in
                  Donation.btcPayInvoiceId d = invoiceId body
                  /\ Donation.projectName d = Metadata.projectName (metadata body)
                  /\ Donation.projectSlug d = Metadata.projectSlug (metadata body)
                  /\ Donation.fundSlug d = Metadata.fundSlug (metadata body)
                  /\ Donation.userId d
                     = (if full then Metadata.userId (metadata body) else None)
                  /\ Donation.membershipExpiresAt d
                     = (if full && String.eqb (Metadata.isMembership (metadata body)) "true"
                        then Some (oneYearFromNow env) else None)) newd).
Proof.
  cbv zeta. unfold handleBtcpayWebhook.
  assert (Hnone : forall s : Store,
            exists newd, donations s = donations s ++ newd
              /\ (newd = [] \/ exists body, verified env req body
                   /\ Forall (fun d =>
                        let full := String.eqb (type body) "InvoiceSettled" in
                        Donation.btcPayInvoiceId d = invoiceId body
                        /\ Donation.projectName d = Metadata.projectName (metadata body)
                        /\ Donation.projectSlug d = Metadata.projectSlug (metadata body)
                        /\ Donation.fundSlug d = Metadata.fundSlug (metadata body)
                        /\ Donation.userId d
                           = (if full then Metadata.userId (metadata body) else None)
                        /\ Donation.membershipExpiresAt d
                           = (if full && String.eqb (Metadata.isMembership (metadata body)) "true"
                              then Some (oneYearFromNow env) else None)) newd)).
  { intros s. exists []. split; [by rewrite app_nil_r|by left]. }
  destruct (is_string (method req) "POST") eqn:Hm; [|apply Hnone]. cbn [negb].
  destruct (btcpay_sig req) as [|sig|l] eqn:Hsig; [apply Hnone| |apply Hnone].
  destruct (JSON_parse env (rawBody req)) as [body|] eqn:Hb; [|apply Hnone].
  destruct (is_string (Js.split "=" sig !! 1%nat) _) eqn:Hs; [|apply Hnone]. cbn [negb].
  assert (Hv : verified env req body).
  { split; [by apply is_string_spec|]. split; [done|].
    exists sig. split; [done|]. by apply is_string_spec. }
  unfold processEvent.
  destruct (String.eqb (type body) "InvoicePaymentSettled") eqn:E1.
  - pose proof (types_exclusive _ E1) as E2. rewrite E2.
    destruct (paymentSettled_cases env body sched st)
      as [[-> _]|[_ [->|(cr & rs & ca & _ & _ & ->)]]];
      [apply Hnone|apply Hnone|].
    cbn [store donations]. eexists. split; [done|]. right. exists body.
    split; [done|]. apply Forall_singleton. cbv zeta. rewrite E2. by cbn.
  - destruct (String.eqb (type body) "InvoiceSettled") eqn:E2; [|apply Hnone].
    unfold invoiceSettled.
    destruct (String.eqb _ "true") eqn:Hf; [apply Hnone|].
    destruct (getPaymentMethods env (paymentMethodsUrl body)) as [pms|]; [|apply Hnone].
    destruct (settlement_summary (oneYearFromNow env) body pms sched st)
      as (newd & newe & Hd & _ & Hmade & _). cbv zeta in Hd.
    destruct (settleInvoice _ _ _ _ _) as [st' legs]. cbn [fst store] in *.
    exists newd. split; [done|]. right. exists body. split; [done|].
    eapply Forall_impl; [exact Hmade|]. cbv beta zeta.
    intros d (pm & _ & _ & ->). rewrite E2. by cbn.
Qed.

(** *** Amounts below half a hundredth of a coin *)

Lemma digits2_pos_bound (m : positive) : Zpos m < 2 ^ Zpos (digits2_pos m).
Proof.
  induction m as [m IH|m IH|]; cbn [digits2_pos]; [| |done];
    rewrite Pos2Z.inj_succ, Z.pow_succ_r by lia; lia.
Qed.

(** [<] on two positive finite numbers reads the exponents first. *)
Lemma ltb_finite (m c : positive) (e k : Z) :
  Js.ltb (S754_finite false m e) (S754_finite false c k) = true ->
  e < k \/ e = k /\ Zpos m < Zpos c.
Proof.
  unfold Js.ltb, SFltb, SFcompare.
  destruct (Z.compare_spec e k) as [->|Hlt|Hgt]; intros H;
    [right|by left|discriminate H].
  split; [done|]. apply Pos2Z.pos_lt_pos.
  change (PosDef.Pos.compare_cont Eq m c = Lt).
  destruct (PosDef.Pos.compare_cont Eq m c);
    [discriminate H|reflexivity|discriminate H].
Qed.

(** The number of the text [0.005], a little above five thousandths. *)
Lemma half_cent :
  Js.Number_ofString "0.005" = S754_finite false 5764607523034235 (-60).
Proof. vm_compute. reflexivity. Qed.

(** [Number(x.toFixed(2))] is [0] for every [0 < x < 0.005]. *)
Lemma toFixed2_below_half_cent (x : Js.number) :
  Js.canonical x = true ->
  Js.ltb zero x = true ->
  Js.ltb x (Js.Number_ofString "0.005") = true ->
  Js.ToBoolean x = true /\ Number_toFixed2 x = zero.
Proof.
  intros Hc Hpos Hlt. rewrite half_cent in Hlt.
  destruct x as [[|]|[|]| |[|] m e]; try discriminate.
  split; [done|]. apply ltb_finite in Hlt.
  assert (Hm : Zpos m < 9007199254740992).
  { cbn [Js.canonical] in Hc. unfold bounded, canonical_mantissa in Hc.
    apply andb_true_iff in Hc as [Hc _]. apply Z.eqb_eq in Hc.
    unfold fexp, Js.prec, Js.emax, emin in Hc.
    pose proof (digits2_pos_bound m) as Hm.
    eapply Z.lt_le_trans; [exact Hm|].
    change 9007199254740992 with (2 ^ 53). apply Z.pow_le_mono_r; lia. }
  clear Hc Hpos.
  assert (He : 200 * Zpos m < 2 ^ (- e) /\ e < 0).
  { destruct Hlt as [Hlt|[-> Hlt]].
    - split; [|lia].
      assert (H : 2 ^ 61 <= 2 ^ (- e)) by (apply Z.pow_le_mono_r; lia).
      change (2 ^ 61) with 2305843009213693952 in H. lia.
    - split; [|lia]. change (2 ^ (- -60)) with 1152921504606846976. lia. }
  destruct He as [He Hneg].
  assert (Hp : 0 < 2 ^ (- e)) by (apply Z.pow_pos_nonneg; lia).
  unfold Number_toFixed2, Js.toFixed2.
  assert (H21 : Js.at_least_1e21 m e = false).
  { unfold Js.at_least_1e21. rewrite (Z.max_r e 0), (Z.max_l (- e) 0) by lia.
    apply Z.leb_gt. change (2 ^ 0) with 1.
    change (10 ^ 21) with 1000000000000000000000. nia. }
  assert (Hn : Js.nearest_hundredths m e = 0).
  { unfold Js.nearest_hundredths. rewrite (Z.max_r e 0), (Z.max_l (- e) 0) by lia.
    change (2 ^ 0) with 1. apply Z.div_small. lia. }
  rewrite H21, Hn. vm_compute. reflexivity.
Qed.

(** X14: a full settlement rounds the amount of coin to two decimals, so
    a payment method whose amount is below 0.005 of its coin has its
    donation written (the amount is not 0) with the crypto amount 0. *)
Theorem small_amounts_recorded_as_zero (oneYear : Z) (body : BtcpayBody)
    (paymentMethods : list PaymentMethod.t) (sched : list Pick) (st0 : Store) :
  Forall (fun pm =>
            Js.canonical (PaymentMethod.amount pm) = true
            /\ Js.ltb zero (PaymentMethod.amount pm) = true
            /\ Js.ltb (PaymentMethod.amount pm) (Js.Number_ofString "0.005") = true)
         paymentMethods ->
  exists newd,
    donations (settleInvoice oneYear body paymentMethods sched st0).1
    = donations st0 ++ newd
    /\ Forall (fun d => Donation.grossCryptoAmount d = zero) newd
    /\ (quiet sched = true -> length newd = length paymentMethods).
Proof.
  intros Hsmall.
  destruct (settlement_summary oneYear body paymentMethods sched st0)
    as (newd & newe & Hd & _ & Hmade & _ & _ & Hc). cbv zeta in Hd, Hc.
  exists newd. split; [done|]. split.
  - eapply Forall_impl; [exact Hmade|]. cbv beta.
    intros d (pm & Hpm & _ & ->).
    rewrite Forall_forall in Hsmall. destruct (Hsmall pm Hpm) as (H1 & H2 & H3).
    cbn [donation_row Donation.grossCryptoAmount donationData
         DonationData.grossCryptoAmount].
    by apply toFixed2_below_half_cent.
  - intros Hq. destruct (Hc Hq) as [-> _].
    clear -Hsmall. induction Hsmall as [|pm pms (H1 & H2 & H3) _ IH]; [done|].
    cbn [List.filter]. unfold nonzero at 1.
    destruct (toFixed2_below_half_cent _ H1 H2 H3) as [-> _].
    cbn [length]. by rewrite IH.
Qed.

(** 0.004 BTC at the rate 60000: a donation of 240 in fiat and 0 BTC. *)
Lemma small_amounts_recorded_as_zero_witness :
  let body := invoice_settled (donor (Some "user-1"%string) "false") in
  let pms := [paid "BTC" "60000" "0.004"] in
  Forall (fun pm =>
            Js.canonical (PaymentMethod.amount pm) = true
            /\ Js.ltb zero (PaymentMethod.amount pm) = true
            /\ Js.ltb (PaymentMethod.amount pm) (Js.Number_ofString "0.005") = true)
         pms
  /\ exists newd,
       donations (settleInvoice 0 body pms [] no_rows).1 = donations no_rows ++ newd
       /\ Forall (fun d => Donation.grossCryptoAmount d = zero) newd
       /\ (quiet [] = true -> length newd = length pms).
Proof.
  cbv zeta.
  assert (H : Forall (fun pm =>
            Js.canonical (PaymentMethod.amount pm) = true
            /\ Js.ltb zero (PaymentMethod.amount pm) = true
            /\ Js.ltb (PaymentMethod.amount pm) (Js.Number_ofString "0.005") = true)
            [paid "BTC" "60000" "0.004"]).
  { apply Forall_singleton. repeat split; vm_compute; reflexivity. }
  split; [exact H|].
  exact (small_amounts_recorded_as_zero 0
           (invoice_settled (donor (Some "user-1"%string) "false"))
           [paid "BTC" "60000" "0.004"] [] no_rows H).
Defined.

Example small_amount_rows :
  let body := invoice_settled (donor (Some "user-1"%string) "false") in
  map (fun d => (Js.Number_toString (Donation.grossCryptoAmount d),
                 Js.Number_toString (Donation.grossFiatAmount d)))
    (donations (settleInvoice 0 body [paid "BTC" "60000" "0.004"] [] no_rows).1)
  = [("0"%string, "240"%string)].
Proof. vm_compute. reflexivity. Qed.

(** *** The signature header *)

(** X15: of the signature header the handler reads the text between the
    first and the second [=] only. Whatever stands before the first [=]
    (it need not be [sha256]) and whatever follows a second one, a POST
    request whose body parses and whose header has the digest of the raw
    body in that place passes the check, and its event is handled. *)
Theorem signature_name_unchecked (env : Env) (req : Request) (body : BtcpayBody)
    (sched : list Pick) (st : Store) (name rest : string) :
  let digest := createHmac_sha256_hex env (BTCPAY_WEBHOOK_SECRET env) (rawBody req) in
  method req = Some "POST"%string ->
  JSON_parse env (rawBody req) = Some body ->
  occurs "=" name = false ->
  occurs "=" digest = false ->
  btcpay_sig req = Single (String.append name (String "=" digest))
  \/ btcpay_sig req
     = Single (String.append name
                 (String "=" (String.append digest (String "=" rest)))) ->
  verified env req body
  /\ handleBtcpayWebhook env req sched st = processEvent env body sched st.
Proof.
  cbv zeta. intros Hm Hb Hname Hdig Hsig.
  assert (Hv : verified env req body).
  { split; [done|]. split; [done|]. destruct Hsig as [Hsig|Hsig].
    - eexists. split; [exact Hsig|]. by rewrite split_at, split_free.
    - eexists. split; [exact Hsig|]. by rewrite !split_at. }
  split; [exact Hv|]. by apply handler_verified.
Qed.

(** A header that names another algorithm and goes on after the digest. *)
Lemma signature_name_unchecked_witness :
  let body := invoice_settled (donor None "false") in
  let env := sample_env sample_raw body None (Some []) in
  let req :=
    {| method := Some "POST"%string;
       btcpay_sig := Single "md5=ab12=anything";
       rawBody := sample_raw |} in
  verified env req body
  /\ handleBtcpayWebhook env req [] no_rows = processEvent env body [] no_rows.
Proof.
  cbv zeta.
  apply (signature_name_unchecked
           (sample_env sample_raw (invoice_settled (donor None "false")) None (Some []))
           {| method := Some "POST"%string;
              btcpay_sig := Single "md5=ab12=anything";
              rawBody := sample_raw |}
           (invoice_settled (donor None "false")) [] no_rows "md5" "anything");
    try reflexivity.
  right. reflexivity.
Defined.

(** *** The fee of a donor who is not logged in *)

(** X16: the fee of 10 percent goes with the flag [givePointsBack], the
    points entry with the flag and the user. A full settlement that asks
    for points and names no user writes no points entry, yet every
    donation it writes has the fee taken off its net amount and carries
    the points of its payment method. *)
Theorem fee_without_entry (oneYear : Z) (body : BtcpayBody)
    (paymentMethods : list PaymentMethod.t) (sched : list Pick) (st0 : Store) :
  Metadata.givePointsBack (metadata body) = "true"%string ->
  truthy (Metadata.userId (metadata body)) = false ->
  let st' := (settleInvoice oneYear body paymentMethods sched st0).1 in
  pointHistory st' = pointHistory st0
  /\ exists newd,
       donations st' = donations st0 ++ newd
       /\ Forall (fun d => exists pm,
            pm ∈ paymentMethods
            /\ Donation.netCryptoAmount d
               = Number_toFixed2 (Js.mul (PaymentMethod.amount pm) nine_tenths)
            /\ Donation.pointsAdded d
               = Js.parseInt
                   (Js.Number_toString
                      (Js.mul
                         (Number_toFixed2
                            (Js.mul (PaymentMethod.amount pm) (PaymentMethod.rate pm)))
                         hundred))) newd.
Proof.
  intros Hflag Huser. cbv zeta.
  assert (Hs : shouldGivePointsBack body = true).
  { unfold shouldGivePointsBack. by rewrite Hflag. }
  assert (Hdue : pointsDue body = false).
  { unfold pointsDue. by rewrite Huser, andb_false_r. }
  destruct (settlement_summary oneYear body paymentMethods sched st0)
    as (newd & newe & Hd & He & Hmade & Hent & _). cbv zeta in Hd, He, Hent.
  split.
  - destruct newe as [|e newe]; [by rewrite He, app_nil_r|].
    apply Forall_cons_1 in Hent as [[Hdue' _] _]. congruence.
  - exists newd. split; [done|]. eapply Forall_impl; [exact Hmade|]. cbv beta.
    intros d (pm & Hpm & _ & ->). exists pm. split; [done|].
    cbn [donation_row donationData Donation.netCryptoAmount Donation.pointsAdded
         DonationData.netCryptoAmount DonationData.pointsAdded default].
    unfold pointsAdded. by rewrite Hs.
Qed.

(** A donor who is not logged in asks for points and pays 1 BTC at the
    rate 100. *)
Lemma fee_without_entry_witness :
  let body := invoice_settled (donor None "true") in
  let pms := [paid "BTC" "100" "1"] in
  Metadata.givePointsBack (metadata body) = "true"%string
  /\ truthy (Metadata.userId (metadata body)) = false
  /\ let st' := (settleInvoice 0 body pms in_turn no_rows).1 in
     pointHistory st' = pointHistory no_rows
     /\ exists newd,
          donations st' = donations no_rows ++ newd
          /\ Forall (fun d => exists pm,
               pm ∈ pms
               /\ Donation.netCryptoAmount d
                  = Number_toFixed2 (Js.mul (PaymentMethod.amount pm) nine_tenths)
               /\ Donation.pointsAdded d
                  = Js.parseInt
                      (Js.Number_toString
                         (Js.mul
                            (Number_toFixed2
                               (Js.mul (PaymentMethod.amount pm)
                                  (PaymentMethod.rate pm)))
                            hundred))) newd.
Proof.
  cbv zeta. split; [reflexivity|]. split; [reflexivity|].
  exact (fee_without_entry 0 (invoice_settled (donor None "true"))
           [paid "BTC" "100" "1"] in_turn no_rows eq_refl eq_refl).
Defined.

Example fee_without_entry_rows :
  let body := invoice_settled (donor None "true") in
  let st' := (settleInvoice 0 body [paid "BTC" "100" "1"] in_turn no_rows).1 in
  map (fun d => (Donation.userId d,
                 Js.Number_toString (Donation.grossCryptoAmount d),
                 Js.Number_toString (Donation.netCryptoAmount d),
                 Js.Number_toString (Donation.pointsAdded d))) (donations st')
  = [(None, "1"%string, "0.9"%string, "10000"%string)]
  /\ pointHistory st' = [].
Proof. vm_compute. split; reflexivity. Qed.
